(** * Session management of the WMS API: login, refresh-token rotation, logout

    A shallow embedding of the three handlers registered by [authRoutes]
    (apps/api/src/routes/auth.routes.ts): POST /login, POST /refresh and
    POST /logout, together with the slice of the persistence layer they
    touch (the [users] and [refresh_tokens] tables reached through Prisma).

    Instants are JavaScript epoch milliseconds, kept in [Z].  Strings are
    [string].  A handler is a state transformer on the database that either
    completes with a reply or throws. *)

From Stdlib Require Import String List ZArith Bool Arith Lia.
Import ListNotations.

Local Open Scope string_scope.
Local Open Scope Z_scope.

(** ** Data model *)

Inductive UserRole : Type := SUPER_ADMIN | ADMIN | MANAGER | STAFF.

Module User.
Record t : Type := mk {
  id : string;
  email : string;
  password : option string;   (* nullable column; the bcrypt hash *)
  name : string;
  role : UserRole;
  active : bool
}.
End User.

(** Modelled from the spec: the Prisma schema is not among the sources.
    Section 3 of the specification gives the row of the refresh-token table:
    the digest of the raw token (the column the handlers call [token]), the
    owning user, the expiry instant and the nullable revocation instant; the
    handlers address a row by [id], the primary key the store assigns. *)
Module RefreshToken.
Record t : Type := mk {
  id : nat;
  token : string;
  userId : string;
  expiresAt : Z;
  revokedAt : option Z
}.
End RefreshToken.

Record Db : Type := mkDb {
  users : list User.t;
  refreshTokens : list RefreshToken.t
}.

(** The claims a token is signed over: [{ id, email, role }]. *)
Module TokenPayload.
Record t : Type := mk { id : string; email : string; role : UserRole }.
End TokenPayload.

(** The public user summary returned by /login: [{ id, email, name, role }]. *)
Module UserSummary.
Record t : Type := mk {
  id : string;
  email : string;
  name : string;
  role : UserRole
}.
End UserSummary.

(** ** Completions and the handler monad *)

Inductive Exn : Type :=
| P2002               (* Prisma: unique constraint failed *)
| P2025               (* Prisma: record to update not found *)
| JsonWebTokenError   (* verifyRefreshToken threw *)
| TypeError.          (* property read on null *)

Inductive Completion (A : Type) : Type :=
| Normal (a : A)
| Throw (e : Exn).
Arguments Normal {A} a.
Arguments Throw {A} e.

Definition Prisma (A : Type) : Type := Db -> Completion A * Db.

Definition ret {A : Type} (a : A) : Prisma A := fun db => (Normal a, db).

Definition throw {A : Type} (e : Exn) : Prisma A := fun db => (Throw e, db).

Definition bind {A B : Type} (m : Prisma A) (k : A -> Prisma B) : Prisma B :=
  fun db =>
    match m db with
    | (Normal a, db') => k a db'
    | (Throw e, db') => (Throw e, db')
    end.

(** [try { m } catch { h }]: the writes done before the throw stay. *)
Definition try_catch {A : Type} (m : Prisma A) (h : Prisma A) : Prisma A :=
  fun db =>
    match m db with
    | (Normal a, db') => (Normal a, db')
    | (Throw _, db') => h db'
    end.

Declare Scope prisma_scope.
Delimit Scope prisma_scope with prisma.
Notation "x <- m ;; k" := (bind m (fun x => k))
  (at level 100, m at next level, right associativity) : prisma_scope.
Notation "m ;;; k" := (bind m (fun _ => k))
  (at level 100, right associativity) : prisma_scope.

(** ** The persistence layer, as the handlers call it *)

Definition by_email (email : string) (u : User.t) : bool :=
  String.eqb (User.email u) email.

Definition by_user_id (id : string) (u : User.t) : bool :=
  String.eqb (User.id u) id.

Definition by_token (token : string) (r : RefreshToken.t) : bool :=
  String.eqb (RefreshToken.token r) token.

Definition by_id (id : nat) (r : RefreshToken.t) : bool :=
  Nat.eqb (RefreshToken.id r) id.

(** [prisma.user.findUnique({ where: { email } })] *)
Definition user_findUnique (email : string) : Prisma (option User.t) :=
  fun db => (Normal (find (by_email email) (users db)), db).

(** What [findUnique] on the refresh-token table returns with
    [include: { user: true }]: the row and the user it references. *)
Record StoredToken : Type := mkStored {
  row : RefreshToken.t;
  user : option User.t
}.

(** The row carrying [token], joined with its user. *)
Definition stored_token (token : string) (db : Db) : option StoredToken :=
  match find (by_token token) (refreshTokens db) with
  | Some r =>
      Some (mkStored r (find (by_user_id (RefreshToken.userId r)) (users db)))
  | None => None
  end.

(** [prisma.refreshToken.findUnique({ where: { token }, include: { user: true } })] *)
Definition refreshToken_findUnique (token : string) : Prisma (option StoredToken) :=
  fun db => (Normal (stored_token token db), db).

Definition set_revokedAt (at_ : Z) (r : RefreshToken.t) : RefreshToken.t :=
  RefreshToken.mk (RefreshToken.id r) (RefreshToken.token r)
    (RefreshToken.userId r) (RefreshToken.expiresAt r) (Some at_).

(** The rows after [revokedAt] is written to those with primary key [id]. *)
Definition revoke_id (id : nat) (at_ : Z) (rows : list RefreshToken.t)
  : list RefreshToken.t :=
  map (fun r => if by_id id r then set_revokedAt at_ r else r) rows.

(** The rows after [revokedAt] is written to those carrying [token]. *)
Definition revoke_token (token : string) (at_ : Z) (rows : list RefreshToken.t)
  : list RefreshToken.t :=
  map (fun r => if by_token token r then set_revokedAt at_ r else r) rows.

(** [prisma.refreshToken.update({ where: { id }, data: { revokedAt } })]:
    the row is selected by primary key alone; no matching row is P2025. *)
Definition refreshToken_update (id : nat) (revokedAt : Z) : Prisma unit :=
  fun db =>
    if existsb (by_id id) (refreshTokens db)
    then (Normal tt, mkDb (users db) (revoke_id id revokedAt (refreshTokens db)))
    else (Throw P2025, db).

(** [prisma.refreshToken.updateMany({ where: { token }, data: { revokedAt } })]:
    every matching row is written; matching none is not an error. *)
Definition refreshToken_updateMany (token : string) (revokedAt : Z) : Prisma unit :=
  fun db =>
    (Normal tt, mkDb (users db) (revoke_token token revokedAt (refreshTokens db))).

(** The primary key given to an inserted row: one not in use. *)
Definition fresh_id (rows : list RefreshToken.t) : nat :=
  S (list_max (map RefreshToken.id rows)).

(** [prisma.refreshToken.create({ data: { token, userId, expiresAt } })]:
    [token] is unique across rows, a duplicate is P2002 and writes nothing;
    [revokedAt] defaults to null. *)
Definition refreshToken_create (token userId : string) (expiresAt : Z) : Prisma unit :=
  fun db =>
    if existsb (by_token token) (refreshTokens db)
    then (Throw P2002, db)
    else (Normal tt,
          mkDb (users db)
            (refreshTokens db ++
               [RefreshToken.mk (fresh_id (refreshTokens db)) token userId expiresAt None])).

(** ** Requests, replies and the environment of one request *)

Record LoginBody : Type := mkLogin { email : string; password : string }.

Record RefreshTokenBody : Type := mkRefresh { refreshToken : string }.

Inductive Payload : Type :=
| LoginResult (accessToken refreshToken : string) (user : UserSummary.t)
| RefreshResult (accessToken refreshToken : string)
| LogoutResult (success : bool)
| ErrorResult (code message : string).

Record Reply : Type := mkReply { status : Z; payload : Payload }.

(** [reply.status(s).send({ error: { code, message } })] *)
Definition send_error (s : Z) (code message : string) : Reply :=
  mkReply s (ErrorResult code message).

(** A handler that returns an object answers 200. *)
Definition send_ok (p : Payload) : Reply := mkReply 200 p.

(** What one request observes of the process around it: the clock at each
    place the handler reads it, and the token issuer of @wms/auth (whose
    output depends on the signing secrets and the time of the call).
    [verifyRefreshToken] answers [None] where the function throws. *)
Record Env : Type := mkEnv {
  now_check : Z;    (* [new Date()] in the expiry comparison of /refresh *)
  now_revoke : Z;   (* [new Date()] written to [revokedAt] *)
  now_issue : Z;    (* [Date.now()] from which [expiresAt] is computed *)
  signAccessToken : TokenPayload.t -> string;
  signRefreshToken : TokenPayload.t -> string;
  verifyRefreshToken : string -> option TokenPayload.t
}.

Definition claims_of (u : User.t) : TokenPayload.t :=
  TokenPayload.mk (User.id u) (User.email u) (User.role u).

Definition summary_of (u : User.t) : UserSummary.t :=
  UserSummary.mk (User.id u) (User.email u) (User.name u) (User.role u).

(** [7 * 24 * 60 * 60 * 1000] *)
Definition SEVEN_DAYS_MS : Z := 7 * 24 * 60 * 60 * 1000.

(** JavaScript truthiness of a nullable string: null and "" are falsy. *)
Definition truthy_string (s : option string) : bool :=
  match s with
  | Some s' => negb (String.eqb s' "")
  | None => false
  end.

(** JavaScript truthiness of a nullable Date: every Date object is truthy. *)
Definition truthy_date (d : option Z) : bool :=
  match d with
  | Some _ => true
  | None => false
  end.

Definition INVALID_CREDENTIALS : Reply :=
  send_error 401 "INVALID_CREDENTIALS" "Invalid email or password".

Definition ACCOUNT_DISABLED : Reply :=
  send_error 403 "ACCOUNT_DISABLED" "Account is disabled".

Definition INVALID_OR_EXPIRED_TOKEN : Reply :=
  send_error 401 "INVALID_TOKEN" "Invalid or expired refresh token".

Definition INVALID_TOKEN : Reply :=
  send_error 401 "INVALID_TOKEN" "Invalid refresh token".

(** ** The handlers *)

Section Handlers.

(** [crypto.createHash("sha256").update(s).digest("hex")] *)
Variable sha256 : string -> string.

(** [verifyPassword(plain, hash)] of @wms/auth. *)
Variable verifyPassword : string -> string -> bool.

Local Open Scope prisma_scope.

(** POST /login, after [LoginSchema.parse]. *)
Definition login (env : Env) (body : LoginBody) : Prisma Reply :=
  found <- user_findUnique (email body) ;;
  match found with
  | None => ret INVALID_CREDENTIALS
  | Some user =>
      if negb (truthy_string (User.password user)) then ret INVALID_CREDENTIALS
      else
        let validPassword :=
          verifyPassword (password body)
            (match User.password user with Some h => h | None => "" end) in
        if negb validPassword then ret INVALID_CREDENTIALS
        else if negb (User.active user) then ret ACCOUNT_DISABLED
        else
          let accessToken := signAccessToken env (claims_of user) in
          let refreshToken := signRefreshToken env (claims_of user) in
          refreshToken_create (sha256 refreshToken) (User.id user)
            (now_issue env + SEVEN_DAYS_MS) ;;;
          ret (send_ok (LoginResult accessToken refreshToken (summary_of user)))
  end.

(** [verifyRefreshToken(token)], throwing where it rejects. *)
Definition verify_or_throw (env : Env) (token : string) : Prisma TokenPayload.t :=
  match verifyRefreshToken env token with
  | Some p => ret p
  | None => throw JsonWebTokenError
  end.

(** Reading [user.id] where [user] may be null. *)
Definition deref (u : option User.t) : Prisma User.t :=
  match u with
  | Some u' => ret u'
  | None => throw TypeError
  end.

(** The condition of the guard of /refresh,
    [!storedToken || storedToken.revokedAt || storedToken.expiresAt < new Date()]. *)
Definition rejected (env : Env) (storedToken : option StoredToken) : bool :=
  match storedToken with
  | None => true
  | Some st =>
      truthy_date (RefreshToken.revokedAt (row st))
      || (RefreshToken.expiresAt (row st) <? now_check env)
  end.

(** POST /refresh, after [RefreshTokenSchema.parse]. *)
Definition refresh (env : Env) (body : RefreshTokenBody) : Prisma Reply :=
  try_catch
    (_payload <- verify_or_throw env (refreshToken body) ;;
     let tokenHash := sha256 (refreshToken body) in
     storedToken <- refreshToken_findUnique tokenHash ;;
     match storedToken with
     | Some st =>
         if rejected env storedToken then ret INVALID_OR_EXPIRED_TOKEN
         else
           refreshToken_update (RefreshToken.id (row st)) (now_revoke env) ;;;
           user <- deref (user st) ;;
           let accessToken := signAccessToken env (claims_of user) in
           let newRefreshToken := signRefreshToken env (claims_of user) in
           refreshToken_create (sha256 newRefreshToken) (User.id user)
             (now_issue env + SEVEN_DAYS_MS) ;;;
           ret (send_ok (RefreshResult accessToken newRefreshToken))
     | None => ret INVALID_OR_EXPIRED_TOKEN
     end)
    (ret INVALID_TOKEN).

(** POST /logout, after [RefreshTokenSchema.parse]. *)
Definition logout (env : Env) (body : RefreshTokenBody) : Prisma Reply :=
  let tokenHash := sha256 (refreshToken body) in
  refreshToken_updateMany tokenHash (now_revoke env) ;;;
  ret (send_ok (LogoutResult true)).

End Handlers.

(** ** Two refresh requests sharing the database

    Node runs a handler up to an [await] and lets other requests run while
    the query is in flight.  /refresh awaits [findUnique], [update] and
    [create]; the two definitions below are the handler up to the guard and
    from the guard on, each inside the handler's [try]. *)

Section Phases.

Variable sha256 : string -> string.

Local Open Scope prisma_scope.

(** Lines up to the guard: either the reply already decided, or the stored
    token the handler goes on with. *)
Definition refresh_check (env : Env) (body : RefreshTokenBody)
  : Prisma (Reply + StoredToken) :=
  try_catch
    (_payload <- verify_or_throw env (refreshToken body) ;;
     let tokenHash := sha256 (refreshToken body) in
     storedToken <- refreshToken_findUnique tokenHash ;;
     match storedToken with
     | Some st =>
         if rejected env storedToken then ret (inl INVALID_OR_EXPIRED_TOKEN)
         else ret (inr st)
     | None => ret (inl INVALID_OR_EXPIRED_TOKEN)
     end)
    (ret (inl INVALID_TOKEN)).

(** Lines after the guard: revoke, sign, insert, answer. *)
Definition refresh_rotate (env : Env) (st : StoredToken) : Prisma Reply :=
  try_catch
    (refreshToken_update (RefreshToken.id (row st)) (now_revoke env) ;;;
     user <- deref (user st) ;;
     let accessToken := signAccessToken env (claims_of user) in
     let newRefreshToken := signRefreshToken env (claims_of user) in
     refreshToken_create (sha256 newRefreshToken) (User.id user)
       (now_issue env + SEVEN_DAYS_MS) ;;;
     ret (send_ok (RefreshResult accessToken newRefreshToken)))
    (ret INVALID_TOKEN).

Definition refresh_resume (env : Env) (c : Reply + StoredToken) : Prisma Reply :=
  match c with
  | inl reply => ret reply
  | inr st => refresh_rotate env st
  end.

(** Requests A and B, scheduled so that both pass the guard before either
    writes: A reads, B reads, A rotates, B rotates. *)
Definition refresh_interleaved (envA envB : Env) (bodyA bodyB : RefreshTokenBody)
  : Prisma (Reply * Reply) :=
  a <- refresh_check envA bodyA ;;
  b <- refresh_check envB bodyB ;;
  replyA <- refresh_resume envA a ;;
  replyB <- refresh_resume envB b ;;
  ret (replyA, replyB).

(** The same two requests, B starting after A has answered. *)
Definition refresh_sequential (envA envB : Env) (bodyA bodyB : RefreshTokenBody)
  : Prisma (Reply * Reply) :=
  replyA <- refresh sha256 envA bodyA ;;
  replyB <- refresh sha256 envB bodyB ;;
  ret (replyA, replyB).

End Phases.

(** ** Observations on a finished request *)

(** The request answered 200 with a new token pair. *)
Definition refreshed (res : Completion Reply * Db) (accessToken newToken : string) : Prop :=
  fst res = Normal (send_ok (RefreshResult accessToken newToken)).

(** The request answered 401 with the error code INVALID_TOKEN. *)
Definition InvalidTokenError (res : Completion Reply * Db) : Prop :=
  exists message, fst res = Normal (send_error 401 "INVALID_TOKEN" message).

(** The database after the presented row has been revoked. *)
Definition after_revoke (env : Env) (st : StoredToken) (db : Db) : Db :=
  mkDb (users db)
    (revoke_id (RefreshToken.id (row st)) (now_revoke env) (refreshTokens db)).

(** The row /refresh and /login insert for a raw token issued to [u]. *)
Definition issued_row (sha256 : string -> string) (env : Env)
  (rows : list RefreshToken.t) (u : User.t) : RefreshToken.t :=
  RefreshToken.mk (fresh_id rows)
    (sha256 (signRefreshToken env (claims_of u)))
    (User.id u) (now_issue env + SEVEN_DAYS_MS) None.

(** The submitted credentials fail: no user for the email, no password set
    on the user (null or empty), or the password does not verify. *)
Definition bad_credentials (verifyPassword : string -> string -> bool)
  (body : LoginBody) (db : Db) : Prop :=
  find (by_email (email body)) (users db) = None
  \/ (exists user,
        find (by_email (email body)) (users db) = Some user
        /\ (User.password user = None \/ User.password user = Some ""))
  \/ (exists user hash,
        find (by_email (email body)) (users db) = Some user
        /\ User.password user = Some hash
        /\ verifyPassword (password body) hash = false).

(** The submitted credentials verify against [user]. *)
Definition good_credentials (verifyPassword : string -> string -> bool)
  (body : LoginBody) (user : User.t) : Prop :=
  exists hash,
    User.password user = Some hash
    /\ hash <> ""
    /\ verifyPassword (password body) hash = true.

(** Integrity the relational store maintains: primary keys and token
    digests are unique. *)
Definition store_ok (db : Db) : Prop :=
  NoDup (map RefreshToken.id (refreshTokens db))
  /\ NoDup (map RefreshToken.token (refreshTokens db)).

(** ** Test doubles and sample data *)

Module Fixture.

Definition sha256 (s : string) : string := "sha256:" ++ s.

Definition verifyPassword (plain hash : string) : bool :=
  String.eqb hash ("bcrypt:" ++ plain).

Definition alice : User.t :=
  User.mk "u1" "a@x.com" (Some "bcrypt:secret123") "Alice" STAFF true.

Definition bob : User.t :=
  User.mk "u2" "b@x.com" (Some "bcrypt:hunter2!") "Bob" MANAGER false.

Definition carol : User.t :=
  User.mk "u3" "c@x.com" None "Carol" STAFF true.

(** An issuer whose tokens carry the serial it is given; the clock reads
    [t] at every place. *)
Definition env_at (t : Z) (serial : string) : Env :=
  mkEnv t t t
    (fun p => "access." ++ TokenPayload.id p ++ "." ++ serial)
    (fun p => "refresh." ++ TokenPayload.id p ++ "." ++ serial)
    (fun tok => if String.prefix "refresh." tok
                then Some (TokenPayload.mk "u1" "a@x.com" STAFF)
                else None).

Definition people : list User.t := [alice; bob; carol].

Definition empty_db : Db := mkDb people [].

(** Alice holds one live refresh token, issued at instant 0. *)
Definition alice_row : RefreshToken.t :=
  RefreshToken.mk 1 (sha256 "refresh.u1.s0") "u1" SEVEN_DAYS_MS None.

Definition one_token_db : Db := mkDb people [alice_row].

Definition T0 : RefreshTokenBody := mkRefresh "refresh.u1.s0".

Definition T1 : RefreshTokenBody := mkRefresh "refresh.u1.s1".

(** The database after [T0] has been exchanged at instant 1000 for [T1]. *)
Definition rotated_db : Db :=
  mkDb people
    [set_revokedAt 1000 alice_row;
     RefreshToken.mk 2 (sha256 "refresh.u1.s1") "u1" (1000 + SEVEN_DAYS_MS) None].

(** A request served at the very instant [alice_row] expires. *)
Definition at_expiry : Env := env_at SEVEN_DAYS_MS "s1".

(** A request served one millisecond later. *)
Definition past_expiry : Env := env_at (SEVEN_DAYS_MS + 1) "s1".

(** A request for which the issuer hands out the token of serial s0 again,
    as a signer that stamps tokens by the second does within one second. *)
Definition same_serial : Env := env_at 1000 "s0".

Definition alice_login : LoginBody := mkLogin "a@x.com" "secret123".

Definition alice_typo : LoginBody := mkLogin "a@x.com" "secret124".

Definition bob_login : LoginBody := mkLogin "b@x.com" "hunter2!".

Definition carol_login : LoginBody := mkLogin "c@x.com" "anything".

Definition nobody_login : LoginBody := mkLogin "nobody@x.com" "secret123".

End Fixture.

From Stdlib Require Import DecimalString.

(** ** User administration (adminUserRoutes)

    The handlers of apps/api/src/routes/admin/users.routes.ts that write the
    users table: POST / (create), PATCH /:id (update) and DELETE /:id
    (deactivate).  They run behind the [authenticate] hook, which leaves the
    claims of the caller's access token in [request.user]. *)

(** A row of the users table with the timestamp the handlers select.  The
    session handlers never read it; [db_of] is the table as they see it. *)
Module UserRow.
Record t : Type := mk { user : User.t; createdAt : Z }.
End UserRow.

Record Store : Type := mkStore {
  userRows : list UserRow.t;
  tokenRows : list RefreshToken.t
}.

Definition db_of (s : Store) : Db :=
  mkDb (map UserRow.user (userRows s)) (tokenRows s).

(** [z.enum(["ADMIN", "MANAGER", "STAFF"])] *)
Module Assignable.
Inductive t : Type := ADMIN | MANAGER | STAFF.
End Assignable.

Definition role_of (r : Assignable.t) : UserRole :=
  match r with
  | Assignable.ADMIN => ADMIN
  | Assignable.MANAGER => MANAGER
  | Assignable.STAFF => STAFF
  end.

(** What [CreateUserSchema.parse] returns. *)
Module CreateUser.
Record t : Type := mk {
  name : string;
  email : string;
  password : string;
  role : Assignable.t
}.
End CreateUser.

(** What [UpdateUserSchema.parse] returns; every key is optional. *)
Module UpdateUser.
Record t : Type := mk {
  name : option string;
  email : option string;
  password : option string;
  role : option Assignable.t;
  active : option bool
}.
End UpdateUser.

(** The columns the handlers select:
    [{ id, email, name, role, active, createdAt }]. *)
Module UserView.
Record t : Type := mk {
  id : string;
  email : string;
  name : string;
  role : UserRole;
  active : bool;
  createdAt : Z
}.
End UserView.

Definition view_of (r : UserRow.t) : UserView.t :=
  UserView.mk (User.id (UserRow.user r)) (User.email (UserRow.user r))
    (User.name (UserRow.user r)) (User.role (UserRow.user r))
    (User.active (UserRow.user r)) (UserRow.createdAt r).

Inductive AdminPayload : Type :=
| UserPayload (user : UserView.t)          (* [{ user }] *)
| SuccessPayload (success : bool)          (* [{ success }] *)
| ErrorPayload (error : string).           (* [{ error }] *)

Record AdminReply : Type := mkAdminReply {
  admin_status : Z;
  admin_payload : AdminPayload
}.

Inductive AdminExn : Type :=
| ZodError                  (* the schema rejected the body *)
| PrismaError (e : Exn).

Inductive AdminOutcome : Type :=
| Replied (r : AdminReply)
| Raised (e : AdminExn).

(** What one admin request observes around it: the salted password hash
    of @wms/auth, and the defaults the store fills in on insert (the cuid
    primary key and the creation instant). *)
Record AdminEnv : Type := mkAdminEnv {
  hashPassword : string -> string;
  cuid : string;
  created_now : Z
}.

Definition row_by_email (email : string) (r : UserRow.t) : bool :=
  String.eqb (User.email (UserRow.user r)) email.

Definition row_by_id (id : string) (r : UserRow.t) : bool :=
  String.eqb (User.id (UserRow.user r)) id.

(** [prisma.user.create({ data })]: [id] and [email] are unique, a
    duplicate of either is P2002 and writes nothing. *)
Definition user_create (r : UserRow.t) (s : Store) : Exn + Store :=
  if existsb (row_by_id (User.id (UserRow.user r))) (userRows s)
     || existsb (row_by_email (User.email (UserRow.user r))) (userRows s)
  then inl P2002
  else inr (mkStore (userRows s ++ [r])%list (tokenRows s)).

(** The [data] of an update: the keys that are present. *)
Record UserPatch : Type := mkPatch {
  set_name : option string;
  set_email : option string;
  set_password : option string;
  set_role : option UserRole;
  set_active : option bool
}.

Definition or_keep {A : Type} (new : option A) (old : A) : A :=
  match new with
  | Some x => x
  | None => old
  end.

Definition apply_patch (p : UserPatch) (r : UserRow.t) : UserRow.t :=
  let u := UserRow.user r in
  UserRow.mk
    (User.mk (User.id u)
       (or_keep (set_email p) (User.email u))
       (match set_password p with
        | Some h => Some h
        | None => User.password u
        end)
       (or_keep (set_name p) (User.name u))
       (or_keep (set_role p) (User.role u))
       (or_keep (set_active p) (User.active u)))
    (UserRow.createdAt r).

(** The email of the update belongs to another row. *)
Definition email_taken (id : string) (p : UserPatch) (rows : list UserRow.t) : bool :=
  match set_email p with
  | Some e => existsb (fun r => row_by_email e r && negb (row_by_id id r)) rows
  | None => false
  end.

Definition patch_id (id : string) (p : UserPatch) (rows : list UserRow.t)
  : list UserRow.t :=
  map (fun r => if row_by_id id r then apply_patch p r else r) rows.

(** [prisma.user.update({ where: { id }, data, select })]: no row is
    P2025, an email another row holds is P2002; the updated row is
    returned. *)
Definition user_update (id : string) (p : UserPatch) (s : Store)
  : Exn + (UserRow.t * Store) :=
  match find (row_by_id id) (userRows s) with
  | None => inl P2025
  | Some r =>
      if email_taken id p (userRows s) then inl P2002
      else inr (apply_patch p r, mkStore (patch_id id p (userRows s)) (tokenRows s))
  end.

(** [["SUPER_ADMIN", "ADMIN"].includes(user.role)] *)
Definition is_admin (role : UserRole) : bool :=
  match role with
  | SUPER_ADMIN | ADMIN => true
  | MANAGER | STAFF => false
  end.

Definition is_SUPER_ADMIN (role : UserRole) : bool :=
  match role with
  | SUPER_ADMIN => true
  | _ => false
  end.

Definition is_assign_ADMIN (role : option Assignable.t) : bool :=
  match role with
  | Some Assignable.ADMIN => true
  | _ => false
  end.

Definition Forbidden : AdminReply := mkAdminReply 403 (ErrorPayload "Forbidden").

(** POST /: create a user.  [body] is [None] where
    [CreateUserSchema.parse(request.body)] throws. *)
Definition createUser (currentUser : TokenPayload.t) (body : option CreateUser.t)
  (env : AdminEnv) (s : Store) : AdminOutcome * Store :=
  if negb (is_admin (TokenPayload.role currentUser)) then (Replied Forbidden, s)
  else
    match body with
    | None => (Raised ZodError, s)
    | Some body =>
        if is_assign_ADMIN (Some (CreateUser.role body))
           && negb (is_SUPER_ADMIN (TokenPayload.role currentUser))
        then (Replied (mkAdminReply 403
                         (ErrorPayload "Only SUPER_ADMIN can create ADMIN users")), s)
        else
          match find (row_by_email (CreateUser.email body)) (userRows s) with
          | Some _existing =>
              (Replied (mkAdminReply 409 (ErrorPayload "Email already exists")), s)
          | None =>
              let row :=
                UserRow.mk
                  (User.mk (cuid env) (CreateUser.email body)
                     (Some (hashPassword env (CreateUser.password body)))
                     (CreateUser.name body) (role_of (CreateUser.role body)) true)
                  (created_now env) in
              match user_create row s with
              | inl e => (Raised (PrismaError e), s)
              | inr s' => (Replied (mkAdminReply 201 (UserPayload (view_of row))), s')
              end
          end
    end.

(** [updateData]: the parsed body, with the password replaced by its hash
    when it is a non-empty string. *)
Definition updateData (env : AdminEnv) (body : UpdateUser.t) : UserPatch :=
  mkPatch (UpdateUser.name body) (UpdateUser.email body)
    (match UpdateUser.password body with
     | Some p => if truthy_string (Some p) then Some (hashPassword env p) else Some p
     | None => None
     end)
    (option_map role_of (UpdateUser.role body))
    (UpdateUser.active body).

(** PATCH /:id: update a user. *)
Definition updateUser (currentUser : TokenPayload.t) (id : string)
  (body : option UpdateUser.t) (env : AdminEnv) (s : Store) : AdminOutcome * Store :=
  if negb (is_admin (TokenPayload.role currentUser)) then (Replied Forbidden, s)
  else
    match body with
    | None => (Raised ZodError, s)
    | Some body =>
        if is_assign_ADMIN (UpdateUser.role body)
           && negb (is_SUPER_ADMIN (TokenPayload.role currentUser))
        then (Replied (mkAdminReply 403
                         (ErrorPayload "Only SUPER_ADMIN can assign ADMIN role")), s)
        else
          match user_update id (updateData env body) s with
          | inl e => (Raised (PrismaError e), s)
          | inr (row, s') => (Replied (mkAdminReply 200 (UserPayload (view_of row))), s')
          end
    end.

(** DELETE /:id: deactivate a user (soft delete). *)
Definition deactivateUser (currentUser : TokenPayload.t) (id : string) (s : Store)
  : AdminOutcome * Store :=
  if negb (is_admin (TokenPayload.role currentUser)) then (Replied Forbidden, s)
  else if String.eqb id (TokenPayload.id currentUser)
  then (Replied (mkAdminReply 400 (ErrorPayload "Cannot deactivate yourself")), s)
  else
    match user_update id (mkPatch None None None None (Some false)) s with
    | inl e => (Raised (PrismaError e), s)
    | inr (_, s') => (Replied (mkAdminReply 200 (SuccessPayload true)), s')
    end.

(** The three writing routes of [adminUserRoutes]. *)
Inductive AdminRequest : Type :=
| POST_user (body : option CreateUser.t)
| PATCH_user (id : string) (body : option UpdateUser.t)
| DELETE_user (id : string).

Definition adminUserRoutes (currentUser : TokenPayload.t) (req : AdminRequest)
  (env : AdminEnv) (s : Store) : AdminOutcome * Store :=
  match req with
  | POST_user body => createUser currentUser body env s
  | PATCH_user id body => updateUser currentUser id body env s
  | DELETE_user id => deactivateUser currentUser id s
  end.

(** Some row of the store has this id and this role. *)
Definition holds_role (role : UserRole) (s : Store) (id : string) : Prop :=
  exists r,
    In r (userRows s)
    /\ User.id (UserRow.user r) = id
    /\ User.role (UserRow.user r) = role.

(** Integrity of the users table: primary keys and emails are unique. *)
Definition users_ok (s : Store) : Prop :=
  NoDup (map (fun r => User.id (UserRow.user r)) (userRows s))
  /\ NoDup (map (fun r => User.email (UserRow.user r)) (userRows s)).

(** A request that leaves id, email and role of every user as they are:
    a deactivation, or an update whose body has neither email nor role. *)
Definition keeps_claims (req : AdminRequest) : Prop :=
  match req with
  | POST_user _ => False
  | PATCH_user _ body =>
      forall b, body = Some b -> UpdateUser.email b = None /\ UpdateUser.role b = None
  | DELETE_user _ => True
  end.


(** ** Seeding the first super admin (packages/db/prisma/seed.ts) *)

(** The variables [main] reads from [process.env]; [None] is undefined. *)
Record ProcessEnv : Type := mkProcessEnv {
  DATABASE_URL : option string;
  DIRECT_URL : option string;
  SUPER_ADMIN_EMAIL : option string;
  SUPER_ADMIN_PASSWORD : option string;
  SUPER_ADMIN_NAME : option string
}.

(** What one run draws from outside: the salted [bcrypt.hash], the id of
    [createId()] and the [NOW()] of the database. *)
Record SeedRun : Type := mkSeedRun {
  bcrypt_hash : string -> nat -> string;
  createId : string;
  NOW : Z
}.

Definition SALT_ROUNDS : nat := 12.

(** [hashPassword] of seed.ts. *)
Definition seed_hashPassword (run : SeedRun) (password : string) : string :=
  bcrypt_hash run password SALT_ROUNDS.

(** [a || b] on values that are strings or undefined. *)
Definition js_or (a b : option string) : option string :=
  if truthy_string a then a else b.

Definition string_or (a : option string) (b : string) : string :=
  match a with
  | Some s => if truthy_string a then s else b
  | None => b
  end.

(** How a run ends; the first two and the last exit with code 1. *)
Inductive SeedResult : Type :=
| MissingDatabaseUrl
| MissingCredentials
| AlreadyExists (email : string)
| Created (email : string)
| InsertFailed (e : Exn).

Definition exit_code (r : SeedResult) : Z :=
  match r with
  | AlreadyExists _ | Created _ => 0
  | MissingDatabaseUrl | MissingCredentials | InsertFailed _ => 1
  end.

(** [main()], with the [catch] that follows it. *)
Definition main (penv : ProcessEnv) (run : SeedRun) (s : Store) : SeedResult * Store :=
  let databaseUrl := js_or (DATABASE_URL penv) (DIRECT_URL penv) in
  let email := SUPER_ADMIN_EMAIL penv in
  let password := SUPER_ADMIN_PASSWORD penv in
  let name := string_or (SUPER_ADMIN_NAME penv) "Super Admin" in
  if negb (truthy_string databaseUrl) then (MissingDatabaseUrl, s)
  else if negb (truthy_string email) || negb (truthy_string password)
  then (MissingCredentials, s)
  else
    match email, password with
    | Some email, Some password =>
        if existsb (row_by_email email) (userRows s) then (AlreadyExists email, s)
        else
          let hashedPassword := seed_hashPassword run password in
          let id := createId run in
          match user_create
                  (UserRow.mk (User.mk id email (Some hashedPassword) name SUPER_ADMIN true)
                     (NOW run)) s with
          | inl e => (InsertFailed e, s)
          | inr s' => (Created email, s')
          end
    | _, _ => (MissingCredentials, s)
    end.

(** ** The web client: role-based navigation
    (apps/web/src/layouts/AppLayout.tsx, apps/web/src/router.tsx) *)

Module NavItem.
Record t : Type := mk {
  to : string;
  label : string;
  icon : string;                       (* the lucide icon, by name *)
  roles : option (list UserRole);      (* absent: every role *)
  fullOnly : bool                      (* absent: false *)
}.
End NavItem.

Definition manager_up : option (list UserRole) := Some [SUPER_ADMIN; ADMIN; MANAGER].

Definition admin_up : option (list UserRole) := Some [SUPER_ADMIN; ADMIN].

Definition allNavItems : list NavItem.t :=
  [ NavItem.mk "/dashboard" "Dashboard" "LayoutDashboard" None false;
    NavItem.mk "/fulfillment" "Fulfilment" "Combine" None false;
    NavItem.mk "/tasks" "My Tasks" "ClipboardList" None false;
    NavItem.mk "/pick" "Pick" "PackageCheck" None false;
    NavItem.mk "/pack" "Pack" "Package" None false;
    NavItem.mk "/receiving" "Receive" "PackagePlus" None false;
    NavItem.mk "/cycle-count" "Cycle Count" "RefreshCw" None false;
    NavItem.mk "/scan" "Scan" "ScanBarcode" None false;
    NavItem.mk "/create-staff" "Create Staff" "User" manager_up false;
    NavItem.mk "/orders" "Orders" "ShoppingCart" manager_up false;
    NavItem.mk "/products" "Products" "Package" manager_up false;
    NavItem.mk "/inventory" "Inventory" "Warehouse" manager_up false;
    NavItem.mk "/locations" "Locations" "MapPin" manager_up false;
    NavItem.mk "/shipping" "Shipping" "Truck" manager_up false;
    NavItem.mk "/reports" "Reports" "BarChart3" manager_up true;
    NavItem.mk "/users" "Users" "Users" admin_up true;
    NavItem.mk "/settings" "Settings" "Settings" admin_up true ].

Definition compactNavItems : list NavItem.t :=
  [ NavItem.mk "/dashboard" "Home" "LayoutDashboard" None false;
    NavItem.mk "/fulfillment" "Fulfilment" "Combine" None false;
    NavItem.mk "/tasks" "Tasks" "ClipboardList" None false;
    NavItem.mk "/pick" "Pick" "PackageCheck" None false;
    NavItem.mk "/pack" "Pack" "Package" None false;
    NavItem.mk "/receiving" "Receive" "PackagePlus" None false;
    NavItem.mk "/cycle-count" "Cycle Count" "RefreshCw" None false;
    NavItem.mk "/scan" "Scan" "ScanBarcode" None false ].

Definition role_eqb (a b : UserRole) : bool :=
  match a, b with
  | SUPER_ADMIN, SUPER_ADMIN | ADMIN, ADMIN | MANAGER, MANAGER | STAFF, STAFF => true
  | _, _ => false
  end.

(** [item.roles.includes(role)] *)
Definition roles_include (roles : list UserRole) (role : UserRole) : bool :=
  existsb (role_eqb role) roles.

(** The callback of the filter in [getNavItemsForRole]. *)
Definition nav_keep (role : UserRole) (compactMode : bool) (item : NavItem.t) : bool :=
  if match NavItem.roles item with
     | Some roles => negb (roles_include roles role)
     | None => false
     end
  then false
  else if compactMode && NavItem.fullOnly item then false
  else true.

Definition getNavItemsForRole (role : UserRole) (compactMode : bool) : list NavItem.t :=
  filter (nav_keep role compactMode) allNavItems.

(** [paths.includes(i.to)] *)
Definition to_in (paths : list string) (i : NavItem.t) : bool :=
  existsb (String.eqb (NavItem.to i)) paths.

(** The three groups the sidebar of the full mode renders, each a filter
    of [navItems]. *)
Definition sidebar_work (navItems : list NavItem.t) : list NavItem.t :=
  filter (to_in ["/dashboard"; "/fulfillment"; "/tasks"; "/pick"; "/pack";
                 "/cycle-count"; "/receiving"; "/scan"]) navItems.

Definition sidebar_management (navItems : list NavItem.t) : list NavItem.t :=
  filter (to_in ["/create-staff"; "/orders"; "/products"; "/inventory";
                 "/locations"; "/shipping"; "/reports"]) navItems.

Definition sidebar_admin (navItems : list NavItem.t) : list NavItem.t :=
  filter (to_in ["/users"; "/settings"]) navItems.

(** The links [AppLayout] renders for a logged-in user.  In compact mode
    the bottom bar maps [compactNavItems], whatever the role, and [navItems]
    is not used; otherwise the sidebar maps the three groups of
    [navItems]. *)
Definition AppLayout_links (role : UserRole) (compactMode : bool) : list NavItem.t :=
  let navItems := getNavItemsForRole role compactMode in
  if compactMode then compactNavItems
  else (sidebar_work navItems ++ sidebar_management navItems
          ++ sidebar_admin navItems)%list.

(** What a guarded route renders. *)
Inductive Rendered : Type :=
| Navigate (to : string)
| Children.

(** [RequireRole] of router.tsx: [user] is [None] while nobody is logged
    in. *)
Definition RequireRole (role : UserRole) (user : option UserSummary.t) : Rendered :=
  match user with
  | None => Navigate "/dashboard"
  | Some u =>
      if negb (role_eqb (UserSummary.role u) role) then Navigate "/dashboard"
      else Children
  end.

(** The tab of the bottom bar is highlighted when
    [pathname === item.to || pathname.startsWith(item.to + "/")]. *)
Definition isActive (pathname : string) (item : NavItem.t) : bool :=
  String.eqb pathname (NavItem.to item)
  || String.prefix (NavItem.to item ++ "/") pathname.



(** [String(count)] for an integer. *)
Definition String_of (count : Z) : string := NilZero.string_of_int (Z.to_int count).

(** [CountBadge]: nothing for a count of zero or less, else the text of the
    badge, in the small style when [compact]. *)
Definition CountBadge (count : Z) (compact : bool) : option (bool * string) :=
  if count <=? 0 then None
  else
    let display := if count >? 99 then "99+" else String_of count in
    Some (compact, display).

(** ** Requests one after another

    The API as a whole: any of the three session routes and of the three
    admin routes, served in some order against the one database.  The
    session handlers run on the database as they see it and write the token
    table. *)

Inductive Request : Type :=
| LoginRequest (env : Env) (body : LoginBody)
| RefreshRequest (env : Env) (body : RefreshTokenBody)
| LogoutRequest (env : Env) (body : RefreshTokenBody)
| AdminUserRequest (currentUser : TokenPayload.t) (req : AdminRequest) (env : AdminEnv).

Definition session_on (handler : Prisma Reply) (s : Store) : Store :=
  mkStore (userRows s) (refreshTokens (snd (handler (db_of s)))).

Section Serving.

Variable sha256 : string -> string.
Variable verifyPassword : string -> string -> bool.

Definition serve (s : Store) (r : Request) : Store :=
  match r with
  | LoginRequest env body => session_on (login sha256 verifyPassword env body) s
  | RefreshRequest env body => session_on (refresh sha256 env body) s
  | LogoutRequest env body => session_on (logout sha256 env body) s
  | AdminUserRequest currentUser req env => snd (adminUserRoutes currentUser req env s)
  end.

Definition serve_all (s : Store) (requests : list Request) : Store :=
  fold_left serve requests s.

End Serving.

(** The row found for the digest [h] carries a revocation instant. *)
Definition revoked_in (h : string) (rows : list RefreshToken.t) : Prop :=
  exists r,
    find (by_token h) rows = Some r /\ RefreshToken.revokedAt r <> None.

(** ** Sample data for administration, seeding and navigation *)

Module Sample.

Definition root : User.t :=
  User.mk "u0" "root@x.com" (Some "bcrypt:rootpass1") "Root" SUPER_ADMIN true.

Definition dave : User.t :=
  User.mk "u4" "d@x.com" (Some "bcrypt:davepass1") "Dave" ADMIN true.

(** The users of [Fixture], a super admin and an admin; Alice holds the
    live refresh token of [Fixture.alice_row]. *)
Definition store : Store :=
  mkStore
    [UserRow.mk root 1; UserRow.mk Fixture.alice 10; UserRow.mk Fixture.bob 20;
     UserRow.mk Fixture.carol 30; UserRow.mk dave 40]
    [Fixture.alice_row].

Definition root_caller : TokenPayload.t := TokenPayload.mk "u0" "root@x.com" SUPER_ADMIN.

Definition dave_caller : TokenPayload.t := TokenPayload.mk "u4" "d@x.com" ADMIN.

Definition alice_caller : TokenPayload.t := TokenPayload.mk "u1" "a@x.com" STAFF.

(** The hash of the test double [Fixture.verifyPassword]; the store would
    give the id "u9" and the instant 5000 to a new row. *)
Definition env : AdminEnv := mkAdminEnv (fun p => "bcrypt:" ++ p) "u9" 5000.

Definition erin : CreateUser.t :=
  CreateUser.mk "Erin" "e@x.com" "erinpass1" Assignable.MANAGER.

Definition new_password : UpdateUser.t :=
  UpdateUser.mk None None (Some "newsecret1") None None.

Definition take_bobs_email : UpdateUser.t :=
  UpdateUser.mk None (Some "b@x.com") None None None.

Definition penv : ProcessEnv :=
  mkProcessEnv (Some "postgres://db") None (Some "first@x.com") (Some "firstpass1") None.

Definition run : SeedRun := mkSeedRun (fun p _ => "bcrypt:" ++ p) "u7" 7000.

Definition later_run : SeedRun := mkSeedRun (fun p _ => "bcrypt2:" ++ p) "u8" 8000.


(** The sample users, with the token table after [Fixture.T0] has been
    rotated. *)
Definition rotated_store : Store :=
  mkStore (userRows store) (refreshTokens Fixture.rotated_db).

Definition busy_day : list Request :=
  [ LoginRequest (Fixture.env_at 2000 "s2") Fixture.alice_login;
    RefreshRequest (Fixture.env_at 2100 "s3") Fixture.T1;
    AdminUserRequest root_caller (PATCH_user "u1" (Some new_password)) env;
    LogoutRequest (Fixture.env_at 2200 "s4") Fixture.T0 ].

Definition pick_tab : NavItem.t := NavItem.mk "/pick" "Pick" "PackageCheck" None false.

End Sample.

(** ** Lemmas on the persistence layer *)

Local Open Scope list_scope.

Lemma set_revokedAt_token (t : Z) (r : RefreshToken.t) :
  RefreshToken.token (set_revokedAt t r) = RefreshToken.token r.
Proof. reflexivity. Qed.

Lemma by_token_revoke_id (h : string) (id : nat) (t : Z) (r : RefreshToken.t) :
  by_token h (if by_id id r then set_revokedAt t r else r) = by_token h r.
Proof. destruct (by_id id r); reflexivity. Qed.

Lemma existsb_by_token_revoke_id (h : string) (id : nat) (t : Z) rows :
  existsb (by_token h) (revoke_id id t rows) = existsb (by_token h) rows.
Proof.
  induction rows as [|r rows IH]; simpl; [reflexivity|].
  now rewrite by_token_revoke_id, IH.
Qed.

Lemma find_by_token_revoke_id (h : string) (id : nat) (t : Z) rows :
  find (by_token h) (revoke_id id t rows)
  = option_map (fun r => if by_id id r then set_revokedAt t r else r)
      (find (by_token h) rows).
Proof.
  induction rows as [|r rows IH]; simpl; [reflexivity|].
  rewrite by_token_revoke_id.
  destruct (by_token h r); [reflexivity | exact IH].
Qed.

Lemma find_by_token_revoke_token (h h' : string) (t : Z) rows :
  find (by_token h) (revoke_token h' t rows)
  = option_map (fun r => if by_token h' r then set_revokedAt t r else r)
      (find (by_token h) rows).
Proof.
  induction rows as [|r rows IH]; simpl; [reflexivity|].
  replace (by_token h (if by_token h' r then set_revokedAt t r else r))
    with (by_token h r) by (destruct (by_token h' r); reflexivity).
  destruct (by_token h r); [reflexivity | exact IH].
Qed.

Lemma find_app_last {A : Type} (p : A -> bool) (l : list A) (x : A) :
  find p (l ++ [x])
  = match find p l with
    | Some y => Some y
    | None => if p x then Some x else None
    end.
Proof.
  induction l as [|a l IH]; simpl; [reflexivity|].
  destruct (p a); [reflexivity | exact IH].
Qed.

Lemma find_existsb_false {A : Type} (p : A -> bool) (l : list A) :
  existsb p l = false -> find p l = None.
Proof.
  induction l as [|a l IH]; simpl; [reflexivity|].
  destruct (p a); simpl; [discriminate | exact IH].
Qed.

Lemma find_existsb_true {A : Type} (p : A -> bool) (l : list A) (x : A) :
  find p l = Some x -> existsb p l = true.
Proof.
  intros H. apply existsb_exists. exists x.
  apply find_some in H. exact H.
Qed.

Lemma find_by_id_hit rows (r : RefreshToken.t) (p : RefreshToken.t -> bool) :
  find p rows = Some r -> existsb (by_id (RefreshToken.id r)) rows = true.
Proof.
  intros H. apply existsb_exists. exists r. split.
  - apply find_some in H. tauto.
  - unfold by_id. apply Nat.eqb_refl.
Qed.



(** ** The three ways a /refresh request ends *)

Section RefreshCases.

Variable sha256 : string -> string.

Lemma refresh_unverified env body db :
  verifyRefreshToken env (refreshToken body) = None ->
  refresh sha256 env body db = (Normal INVALID_TOKEN, db).
Proof.
  intros Hv. unfold refresh, try_catch, bind, verify_or_throw.
  rewrite Hv. reflexivity.
Qed.

Lemma refresh_rejected env body db p :
  verifyRefreshToken env (refreshToken body) = Some p ->
  rejected env (stored_token (sha256 (refreshToken body)) db) = true ->
  refresh sha256 env body db = (Normal INVALID_OR_EXPIRED_TOKEN, db).
Proof.
  intros Hv Hr.
  unfold refresh, try_catch, bind, verify_or_throw,
    refreshToken_findUnique.
  rewrite Hv. cbn [ret].
  destruct (stored_token (sha256 (refreshToken body)) db) as [st|]; [|reflexivity].
  rewrite Hr. reflexivity.
Qed.

Lemma refresh_passed env body db p st :
  verifyRefreshToken env (refreshToken body) = Some p ->
  stored_token (sha256 (refreshToken body)) db = Some st ->
  rejected env (Some st) = false ->
  refresh sha256 env body db =
    match user st with
    | None => (Normal INVALID_TOKEN, after_revoke env st db)
    | Some u =>
        if existsb (by_token (sha256 (signRefreshToken env (claims_of u))))
             (refreshTokens db)
        then (Normal INVALID_TOKEN, after_revoke env st db)
        else (Normal (send_ok (RefreshResult (signAccessToken env (claims_of u))
                                 (signRefreshToken env (claims_of u)))),
              mkDb (users db)
                (refreshTokens (after_revoke env st db)
                 ++ [issued_row sha256 env (refreshTokens (after_revoke env st db)) u]))
    end.
Proof.
  intros Hv Hs Hr.
  assert (Hid : existsb (by_id (RefreshToken.id (row st))) (refreshTokens db) = true).
  { unfold stored_token in Hs.
    destruct (find (by_token (sha256 (refreshToken body))) (refreshTokens db))
      as [r|] eqn:Hf; [|discriminate].
    injection Hs as <-. simpl. eapply find_by_id_hit; eassumption. }
  unfold refresh, try_catch, bind, verify_or_throw,
    refreshToken_findUnique, refreshToken_update.
  rewrite Hv. cbn [ret]. rewrite Hs, Hr, Hid.
  destruct (user st) as [u|]; cbn [deref ret throw]; [|reflexivity].
  unfold refreshToken_create. cbn [refreshTokens users].
  rewrite existsb_by_token_revoke_id.
  destruct (existsb (by_token _) (refreshTokens db)); reflexivity.
Qed.

(** A request that answered with a new pair went through every step. *)
Lemma refresh_success_inv env body db accessToken newToken db1 :
  refresh sha256 env body db
    = (Normal (send_ok (RefreshResult accessToken newToken)), db1) ->
  exists p st u,
    verifyRefreshToken env (refreshToken body) = Some p
    /\ stored_token (sha256 (refreshToken body)) db = Some st
    /\ rejected env (Some st) = false
    /\ user st = Some u
    /\ accessToken = signAccessToken env (claims_of u)
    /\ newToken = signRefreshToken env (claims_of u)
    /\ existsb (by_token (sha256 newToken)) (refreshTokens db) = false
    /\ db1 = mkDb (users db)
               (refreshTokens (after_revoke env st db)
                ++ [issued_row sha256 env (refreshTokens (after_revoke env st db)) u]).
Proof.
  intros H.
  destruct (verifyRefreshToken env (refreshToken body)) as [p|] eqn:Hv.
  2:{ rewrite refresh_unverified in H by assumption. discriminate. }
  destruct (rejected env (stored_token (sha256 (refreshToken body)) db)) eqn:Hr.
  { rewrite (refresh_rejected _ _ _ _ Hv Hr) in H. discriminate. }
  destruct (stored_token (sha256 (refreshToken body)) db) as [st|] eqn:Hs;
    [|discriminate].
  rewrite (refresh_passed _ _ _ _ _ Hv Hs Hr) in H.
  destruct (user st) as [u|] eqn:Hu; [|discriminate].
  destruct (existsb (by_token _) (refreshTokens db)) eqn:Hc; [discriminate|].
  injection H as Ha Ht Hdb. subst accessToken newToken db1.
  exists p, st, u. repeat split; assumption.
Qed.

Lemma map_id_revoke_id id t rows :
  map RefreshToken.id (revoke_id id t rows) = map RefreshToken.id rows.
Proof.
  unfold revoke_id. rewrite map_map. apply map_ext.
  intros r. destruct (by_id id r); reflexivity.
Qed.


Lemma stored_token_row h db st :
  stored_token h db = Some st ->
  find (by_token h) (refreshTokens db) = Some (row st)
  /\ user st = find (by_user_id (RefreshToken.userId (row st))) (users db).
Proof.
  unfold stored_token.
  destruct (find (by_token h) (refreshTokens db)) as [r|]; [|discriminate].
  intros [= <-]. split; reflexivity.
Qed.

(** A token whose row is revoked, or that has no row, is turned away by
    every later request, which writes nothing. *)
Lemma refresh_turned_away env body db :
  (forall st, stored_token (sha256 (refreshToken body)) db = Some st ->
              RefreshToken.revokedAt (row st) <> None) ->
  InvalidTokenError (refresh sha256 env body db)
  /\ snd (refresh sha256 env body db) = db.
Proof.
  intros Hrev. unfold InvalidTokenError.
  destruct (verifyRefreshToken env (refreshToken body)) as [p|] eqn:Hv.
  - rewrite (refresh_rejected env body db p Hv).
    + split; [eexists; reflexivity | reflexivity].
    + destruct (stored_token _ db) as [st|] eqn:Hs; [|reflexivity].
      specialize (Hrev st eq_refl). simpl.
      destruct (RefreshToken.revokedAt (row st)); [reflexivity | congruence].
  - rewrite refresh_unverified by assumption.
    split; [eexists; reflexivity | reflexivity].
Qed.

(** Once a request has rotated a token, the row of that token is revoked. *)
Lemma rotated_row_revoked env body db accessToken newToken db1 :
  refresh sha256 env body db
    = (Normal (send_ok (RefreshResult accessToken newToken)), db1) ->
  forall st, stored_token (sha256 (refreshToken body)) db1 = Some st ->
             RefreshToken.revokedAt (row st) <> None.
Proof.
  intros H st1 Hs1.
  destruct (refresh_success_inv _ _ _ _ _ _ H)
    as (p & st & u & _ & Hs & _ & _ & _ & _ & _ & ->).
  apply stored_token_row in Hs. destruct Hs as [Hf _].
  apply stored_token_row in Hs1. destruct Hs1 as [Hf1 _].
  cbn [refreshTokens after_revoke] in Hf1.
  rewrite find_app_last, find_by_token_revoke_id, Hf in Hf1. simpl in Hf1.
  unfold by_id in Hf1. rewrite Nat.eqb_refl in Hf1.
  injection Hf1 as <-. discriminate.
Qed.

End RefreshCases.

(** ** Rotation *)

Section Rotation.

Variable sha256 : string -> string.



End Rotation.

(** ** Login *)

Section Login.

Variable sha256 : string -> string.
Variable verifyPassword : string -> string -> bool.

Lemma truthy_string_hash (hash : string) :
  hash <> "" -> truthy_string (Some hash) = true.
Proof.
  intros Hne. simpl. destruct (String.eqb_spec hash ""); [contradiction | reflexivity].
Qed.

(** What /login does once the user is found and the password verifies. *)
Lemma login_verified env body db user :
  find (by_email (email body)) (users db) = Some user ->
  good_credentials verifyPassword body user ->
  login sha256 verifyPassword env body db =
    if negb (User.active user) then (Normal ACCOUNT_DISABLED, db)
    else if existsb (by_token (sha256 (signRefreshToken env (claims_of user))))
              (refreshTokens db)
    then (Throw P2002, db)
    else (Normal (send_ok (LoginResult (signAccessToken env (claims_of user))
                             (signRefreshToken env (claims_of user))
                             (summary_of user))),
          mkDb (users db)
            (refreshTokens db ++ [issued_row sha256 env (refreshTokens db) user])).
Proof.
  intros Hf (hash & Hp & Hne & Hv).
  unfold login, bind, user_findUnique. rewrite Hf, Hp.
  rewrite (truthy_string_hash _ Hne), Hv. cbn [negb].
  destruct (User.active user); cbn [negb]; [|reflexivity].
  unfold refreshToken_create.
  destruct (existsb (by_token _) (refreshTokens db)); reflexivity.
Qed.

(** What /login does in the three cases that fail the credentials. *)
Lemma login_unverified env body db :
  bad_credentials verifyPassword body db ->
  login sha256 verifyPassword env body db = (Normal INVALID_CREDENTIALS, db).
Proof.
  unfold login, bind, user_findUnique.
  intros [Hf | [(user & Hf & [Hp | Hp]) | (user & hash & Hf & Hp & Hv)]];
    rewrite Hf; try reflexivity; rewrite Hp; try reflexivity.
  cbn [truthy_string]. destruct (String.eqb hash ""); cbn [negb]; [reflexivity|].
  rewrite Hv. reflexivity.
Qed.

(** Every request is in one case or the other. *)
Lemma credentials_dec body db :
  bad_credentials verifyPassword body db
  \/ exists user,
       find (by_email (email body)) (users db) = Some user
       /\ good_credentials verifyPassword body user.
Proof.
  unfold good_credentials.
  destruct (find (by_email (email body)) (users db)) as [user|] eqn:Hf.
  2:{ left. left. exact Hf. }
  destruct (User.password user) as [hash|] eqn:Hp.
  2:{ left. right. left. exists user. auto. }
  destruct (String.eqb_spec hash "") as [->|Hne].
  { left. right. left. exists user. auto. }
  destruct (verifyPassword (password body) hash) eqn:Hv.
  - right. exists user. split; [reflexivity|]. exists hash. auto.
  - left. right. right. exists user, hash. auto.
Qed.


(** C4 (credentials collapse).  When the email matches no user, or the
    user has no password set, or the password does not verify, /login
    answers 401 INVALID_CREDENTIALS "Invalid email or password" and writes
    nothing; the reply is the same in the three cases, so any two such
    requests are answered alike in status, code and message. *)
Theorem login_invalid_credentials (env : Env) (body : LoginBody) (db : Db) :
  bad_credentials verifyPassword body db ->
  login sha256 verifyPassword env body db
    = (Normal (mkReply 401
                 (ErrorResult "INVALID_CREDENTIALS" "Invalid email or password")),
       db)
  /\ forall env' body' db',
       bad_credentials verifyPassword body' db' ->
       fst (login sha256 verifyPassword env' body' db')
       = fst (login sha256 verifyPassword env body db).
Proof.
  intros Hbad. split.
  - now apply login_unverified.
  - intros env' body' db' Hbad'.
    now rewrite !login_unverified.
Qed.

(** C5 (disabled accounts).  For a user whose active flag is false: with
    credentials that verify, /login answers 403 ACCOUNT_DISABLED; that
    answer is given only when the credentials verified; and with credentials
    that do not verify the answer is 401 INVALID_CREDENTIALS. *)
Theorem login_disabled (env : Env) (body : LoginBody) (db : Db) (user : User.t) :
  find (by_email (email body)) (users db) = Some user ->
  User.active user = false ->
  (good_credentials verifyPassword body user ->
   login sha256 verifyPassword env body db
     = (Normal (mkReply 403 (ErrorResult "ACCOUNT_DISABLED" "Account is disabled")),
        db))
  /\ (fst (login sha256 verifyPassword env body db) = Normal ACCOUNT_DISABLED ->
      good_credentials verifyPassword body user)
  /\ (~ good_credentials verifyPassword body user ->
      login sha256 verifyPassword env body db
        = (Normal (mkReply 401
                     (ErrorResult "INVALID_CREDENTIALS" "Invalid email or password")),
           db)).
Proof.
  intros Hf Ha.
  assert (Hgood : good_credentials verifyPassword body user ->
                  login sha256 verifyPassword env body db
                  = (Normal ACCOUNT_DISABLED, db)).
  { intros Hg. rewrite (login_verified env body db user Hf Hg), Ha. reflexivity. }
  assert (Hbad : ~ good_credentials verifyPassword body user ->
                 login sha256 verifyPassword env body db
                 = (Normal INVALID_CREDENTIALS, db)).
  { intros Hn. destruct (credentials_dec body db) as [Hb | (user' & Hf' & Hg)].
    - now apply login_unverified.
    - rewrite Hf in Hf'. injection Hf' as <-. contradiction. }
  split; [exact Hgood|]. split; [|exact Hbad].
  intros Hreply.
  destruct (credentials_dec body db) as [Hb | (user' & Hf' & Hg)].
  - rewrite (login_unverified env body db Hb) in Hreply. discriminate.
  - rewrite Hf in Hf'. injection Hf' as <-. exact Hg.
Qed.

(** C10 (failed login writes nothing).  Whenever /login answers with an
    error body, the answer is INVALID_CREDENTIALS or ACCOUNT_DISABLED and
    the database is the one the request started from. *)
Theorem login_error_store_unchanged (env : Env) (body : LoginBody) (db db' : Db)
  (reply : Reply) (code message : string) :
  login sha256 verifyPassword env body db = (Normal reply, db') ->
  payload reply = ErrorResult code message ->
  db' = db
  /\ (reply = INVALID_CREDENTIALS \/ reply = ACCOUNT_DISABLED).
Proof.
  intros H Hpayload.
  destruct (credentials_dec body db) as [Hb | (user & Hf & Hg)].
  - rewrite (login_unverified env body db Hb) in H.
    injection H as <- <-. auto.
  - rewrite (login_verified env body db user Hf Hg) in H.
    destruct (negb (User.active user)).
    + injection H as <- <-. auto.
    + destruct (existsb (by_token _) (refreshTokens db)); [discriminate|].
      injection H as <- <-. discriminate.
Qed.

End Login.

(** ** Validation of a presented refresh token *)

Section Validation.

Variable sha256 : string -> string.

(** /refresh has a catch-all: it always answers, it never throws. *)
Lemma refresh_answers env body db :
  exists reply db', refresh sha256 env body db = (Normal reply, db').
Proof.
  destruct (verifyRefreshToken env (refreshToken body)) as [p|] eqn:Hv.
  2:{ rewrite refresh_unverified by assumption. eauto. }
  destruct (rejected env (stored_token (sha256 (refreshToken body)) db)) eqn:Hr.
  { rewrite (refresh_rejected _ _ _ _ p Hv Hr). eauto. }
  destruct (stored_token (sha256 (refreshToken body)) db) as [st|] eqn:Hs;
    [|discriminate].
  rewrite (refresh_passed _ _ _ _ p st Hv Hs Hr).
  destruct (user st) as [u|]; [|eauto].
  destruct (existsb (by_token _) (refreshTokens db)); eauto.
Qed.

(** C3 (usable tokens), as the code has it.  For a raw token that passes
    signature verification, /refresh answers with a new pair exactly when a
    row with the digest of the token is stored together with its user, the
    [revokedAt] of the row is null, its [expiresAt] is not before the
    instant of the check, and the digest of the token then issued is not
    already stored; in every other case it answers 401 INVALID_TOKEN.  In
    particular a row whose [expiresAt] is before the instant of the check is
    turned away, revoked or not, and nothing is written. *)
Theorem refresh_usable_iff (env : Env) (body : RefreshTokenBody) (db : Db)
  (p : TokenPayload.t) :
  verifyRefreshToken env (refreshToken body) = Some p ->
  let usable :=
    exists st u,
      stored_token (sha256 (refreshToken body)) db = Some st
      /\ user st = Some u
      /\ RefreshToken.revokedAt (row st) = None
      /\ now_check env <= RefreshToken.expiresAt (row st)
      /\ existsb (by_token (sha256 (signRefreshToken env (claims_of u))))
           (refreshTokens db) = false in
  ((exists accessToken newToken,
       refreshed (refresh sha256 env body db) accessToken newToken) <-> usable)
  /\ (~ usable -> InvalidTokenError (refresh sha256 env body db))
  /\ (forall st,
        stored_token (sha256 (refreshToken body)) db = Some st ->
        RefreshToken.expiresAt (row st) < now_check env ->
        refresh sha256 env body db
          = (Normal (mkReply 401
                       (ErrorResult "INVALID_TOKEN" "Invalid or expired refresh token")),
             db)).
Proof.
  intros Hv usable.
  assert (Hif : usable ->
                exists accessToken newToken,
                  refreshed (refresh sha256 env body db) accessToken newToken).
  { intros (st & u & Hs & Hu & Hnull & Hlive & Hfresh).
    unfold refreshed. rewrite (refresh_passed _ _ _ _ p st Hv Hs).
    - rewrite Hu, Hfresh. do 2 eexists. reflexivity.
    - simpl. rewrite Hnull. simpl. now apply Z.ltb_ge. }
  assert (Honly : (exists accessToken newToken,
                      refreshed (refresh sha256 env body db) accessToken newToken)
                  -> usable).
  { intros (a & t & Hok). unfold refreshed in Hok.
    destruct (refresh sha256 env body db) as [c db1] eqn:Hrun.
    simpl in Hok. subst c.
    destruct (refresh_success_inv _ _ _ _ _ _ _ Hrun)
      as (_ & st & u & _ & Hs & Hr & Hu & _ & -> & Hfresh & _).
    simpl in Hr. apply orb_false_iff in Hr. destruct Hr as [Hnull Hexp].
    exists st, u. repeat split; try assumption.
    - destruct (RefreshToken.revokedAt (row st)); [discriminate | reflexivity].
    - now apply Z.ltb_ge. }
  split; [split; assumption|]. split.
  - intros Hn. unfold InvalidTokenError.
    destruct (rejected env (stored_token (sha256 (refreshToken body)) db)) eqn:Hr.
    { rewrite (refresh_rejected _ _ _ _ p Hv Hr). eexists. reflexivity. }
    destruct (stored_token (sha256 (refreshToken body)) db) as [st|] eqn:Hs;
      [|discriminate].
    rewrite (refresh_passed _ _ _ _ p st Hv Hs Hr).
    destruct (user st) as [u|] eqn:Hu; [|eexists; reflexivity].
    destruct (existsb (by_token _) (refreshTokens db)) eqn:Hc;
      [eexists; reflexivity|].
    exfalso. apply Hn. simpl in Hr. apply orb_false_iff in Hr.
    destruct Hr as [Hnull Hexp].
    exists st, u. repeat split; try assumption; try reflexivity.
    + destruct (RefreshToken.revokedAt (row st)); [discriminate | reflexivity].
    + now apply Z.ltb_ge.
  - intros st Hs Hpast.
    apply (refresh_rejected _ _ _ _ p Hv). rewrite Hs. simpl.
    apply orb_true_iff. right. now apply Z.ltb_lt.
Qed.

(** C6 (failed refresh), as the code has it.  A /refresh request turned
    away before the revoke step -- the token does not verify, or there is no
    row for it, or the row is revoked, or the row has expired -- answers
    401 INVALID_TOKEN and leaves the database as it was: the presented row
    is not revoked and no row is inserted. *)
Theorem refresh_turned_away_store_unchanged (env : Env) (body : RefreshTokenBody)
  (db : Db) :
  verifyRefreshToken env (refreshToken body) = None
  \/ stored_token (sha256 (refreshToken body)) db = None
  \/ (exists st,
        stored_token (sha256 (refreshToken body)) db = Some st
        /\ (RefreshToken.revokedAt (row st) <> None
            \/ RefreshToken.expiresAt (row st) < now_check env)) ->
  InvalidTokenError (refresh sha256 env body db)
  /\ snd (refresh sha256 env body db) = db.
Proof.
  intros Hcase. unfold InvalidTokenError.
  destruct (verifyRefreshToken env (refreshToken body)) as [p|] eqn:Hv.
  2:{ rewrite refresh_unverified by assumption.
      split; [eexists|]; reflexivity. }
  rewrite (refresh_rejected _ env body db p Hv).
  { split; [eexists|]; reflexivity. }
  destruct Hcase as [Hnone | [Hs | (st & Hs & Hbad)]]; [discriminate | | ].
  - rewrite Hs. reflexivity.
  - rewrite Hs. simpl. apply orb_true_iff. destruct Hbad as [Hrev | Hpast].
    + left. destruct (RefreshToken.revokedAt (row st)); [reflexivity | congruence].
    + right. now apply Z.ltb_lt.
Qed.

End Validation.

(** ** Insert conflicts *)

Section Conflict.

Variable sha256 : string -> string.
Variable verifyPassword : string -> string -> bool.

(** C8 (insert conflict), as the code has it.  When the digest of the token
    issued to [u] is already stored, the insert is not tried again with
    another token.  /login lets the unique-constraint error of the insert
    leave the handler, with the database as it was; /refresh absorbs it in
    its catch-all and answers 401 INVALID_TOKEN "Invalid refresh token",
    with the presented row revoked and no row inserted. *)
Theorem insert_conflict_not_retried (env : Env) (db : Db) (u : User.t) :
  existsb (by_token (sha256 (signRefreshToken env (claims_of u))))
    (refreshTokens db) = true ->
  (forall body,
      find (by_email (email body)) (users db) = Some u ->
      good_credentials verifyPassword body u ->
      User.active u = true ->
      login sha256 verifyPassword env body db = (Throw P2002, db))
  /\ (forall body p st,
        verifyRefreshToken env (refreshToken body) = Some p ->
        stored_token (sha256 (refreshToken body)) db = Some st ->
        rejected env (Some st) = false ->
        user st = Some u ->
        refresh sha256 env body db
          = (Normal (mkReply 401 (ErrorResult "INVALID_TOKEN" "Invalid refresh token")),
             mkDb (users db)
               (revoke_id (RefreshToken.id (row st)) (now_revoke env)
                  (refreshTokens db)))).
Proof.
  intros Hdup. split.
  - intros body Hf Hg Ha.
    rewrite (login_verified _ _ env body db u Hf Hg), Ha, Hdup. reflexivity.
  - intros body p st Hv Hs Hr Hu.
    rewrite (refresh_passed _ env body db p st Hv Hs Hr), Hu, Hdup. reflexivity.
Qed.

End Conflict.

(** ** Logout *)

Section Logout.

Variable sha256 : string -> string.

Lemma logout_eq env body db :
  logout sha256 env body db
  = (Normal (send_ok (LogoutResult true)),
     mkDb (users db)
       (revoke_token (sha256 (refreshToken body)) (now_revoke env) (refreshTokens db))).
Proof. reflexivity. Qed.

(** After /logout every row of the token carries a revocation instant. *)
Lemma logout_revokes env body db st :
  stored_token (sha256 (refreshToken body)) (snd (logout sha256 env body db)) = Some st ->
  RefreshToken.revokedAt (row st) <> None.
Proof.
  rewrite logout_eq. cbn [snd]. intros Hs.
  apply stored_token_row in Hs. destruct Hs as [Hf _].
  cbn [refreshTokens] in Hf. rewrite find_by_token_revoke_token in Hf.
  destruct (find (by_token (sha256 (refreshToken body))) (refreshTokens db))
    as [r|] eqn:Hr; [|discriminate].
  apply find_some in Hr. destruct Hr as [_ Hr].
  simpl in Hf. rewrite Hr in Hf. injection Hf as <-. discriminate.
Qed.

(** C9 (logout).  For every raw token and every database, /logout answers
    200 [{ success: true }] -- whether or not a row matches and whether or
    not it was revoked before --, a second /logout with the same token
    answers the same, and after the first as after the second a /refresh
    presenting the token answers 401 INVALID_TOKEN. *)
Theorem logout_idempotent (env1 env2 env3 : Env) (body : RefreshTokenBody)
  (db : Db) :
  let db1 := snd (logout sha256 env1 body db) in
  let db2 := snd (logout sha256 env2 body db1) in
  fst (logout sha256 env1 body db) = Normal (mkReply 200 (LogoutResult true))
  /\ fst (logout sha256 env2 body db1) = Normal (mkReply 200 (LogoutResult true))
  /\ InvalidTokenError (refresh sha256 env3 body db1)
  /\ InvalidTokenError (refresh sha256 env3 body db2).
Proof.
  intros db1 db2.
  split; [reflexivity|]. split; [reflexivity|].
  split; apply refresh_turned_away; intros st Hs;
    eapply logout_revokes; exact Hs.
Qed.

End Logout.

(** ** Two requests with one token *)

Section TwoRequests.

Variable sha256 : string -> string.

(** The two phases, run back to back, are the handler. *)
Lemma refresh_phases env body db :
  refresh sha256 env body db
  = bind (refresh_check sha256 env body) (refresh_resume sha256 env) db.
Proof.
  unfold refresh, refresh_check, refresh_resume, refresh_rotate, try_catch, bind,
    verify_or_throw, refreshToken_findUnique.
  destruct (verifyRefreshToken env (refreshToken body)); cbn [ret throw];
    [|reflexivity].
  destruct (stored_token (sha256 (refreshToken body)) db) as [st|]; [|reflexivity].
  destruct (rejected env (Some st)); reflexivity.
Qed.

(** The revoking update succeeds on any row that exists, revoked or not. *)
Lemma update_twice id t0 t db :
  existsb (by_id id) (refreshTokens db) = true ->
  fst (refreshToken_update id t (snd (refreshToken_update id t0 db))) = Normal tt.
Proof.
  intros Hin. unfold refreshToken_update. rewrite Hin. cbn [snd refreshTokens].
  assert (Hkeep : existsb (by_id id) (revoke_id id t0 (refreshTokens db)) = true).
  { apply existsb_exists in Hin. destruct Hin as (r & Hr & Hid).
    apply existsb_exists.
    exists (if by_id id r then set_revokedAt t0 r else r). split.
    - unfold revoke_id. apply in_map_iff. exists r. auto.
    - rewrite Hid. exact Hid. }
  rewrite Hkeep. reflexivity.
Qed.

Lemma refresh_check_passed env body db p st :
  verifyRefreshToken env (refreshToken body) = Some p ->
  stored_token (sha256 (refreshToken body)) db = Some st ->
  rejected env (Some st) = false ->
  refresh_check sha256 env body db = (Normal (inr st), db).
Proof.
  intros Hv Hs Hr.
  unfold refresh_check, try_catch, bind, verify_or_throw, refreshToken_findUnique.
  rewrite Hv. cbn [ret]. rewrite Hs, Hr. reflexivity.
Qed.

Lemma refresh_rotate_fresh env st db u :
  existsb (by_id (RefreshToken.id (row st))) (refreshTokens db) = true ->
  user st = Some u ->
  existsb (by_token (sha256 (signRefreshToken env (claims_of u))))
    (refreshTokens db) = false ->
  refresh_rotate sha256 env st db
  = (Normal (send_ok (RefreshResult (signAccessToken env (claims_of u))
                        (signRefreshToken env (claims_of u)))),
     mkDb (users db)
       (refreshTokens (after_revoke env st db)
        ++ [issued_row sha256 env (refreshTokens (after_revoke env st db)) u])).
Proof.
  intros Hid Hu Hfresh.
  unfold refresh_rotate, try_catch, bind, refreshToken_update.
  rewrite Hid, Hu. cbn [deref ret]. unfold refreshToken_create.
  cbn [refreshTokens users]. rewrite existsb_by_token_revoke_id, Hfresh.
  reflexivity.
Qed.

(** The schedule in which both requests read before either writes: when the
    presented row passes both guards and the two issued tokens are new and
    differ, both requests are answered with a new pair. *)
Lemma refresh_interleaved_both_succeed envA envB body db pA pB st u :
  verifyRefreshToken envA (refreshToken body) = Some pA ->
  verifyRefreshToken envB (refreshToken body) = Some pB ->
  stored_token (sha256 (refreshToken body)) db = Some st ->
  user st = Some u ->
  rejected envA (Some st) = false ->
  rejected envB (Some st) = false ->
  existsb (by_token (sha256 (signRefreshToken envA (claims_of u))))
    (refreshTokens db) = false ->
  existsb (by_token (sha256 (signRefreshToken envB (claims_of u))))
    (refreshTokens db) = false ->
  sha256 (signRefreshToken envA (claims_of u))
    <> sha256 (signRefreshToken envB (claims_of u)) ->
  fst (refresh_interleaved sha256 envA envB body body db)
  = Normal (send_ok (RefreshResult (signAccessToken envA (claims_of u))
                       (signRefreshToken envA (claims_of u))),
            send_ok (RefreshResult (signAccessToken envB (claims_of u))
                       (signRefreshToken envB (claims_of u)))).
Proof.
  intros HvA HvB Hs Hu HrA HrB HfreshA HfreshB Hdiff.
  assert (Hid : existsb (by_id (RefreshToken.id (row st))) (refreshTokens db) = true).
  { apply stored_token_row in Hs. destruct Hs as [Hf _].
    eapply find_by_id_hit; exact Hf. }
  unfold refresh_interleaved, bind.
  rewrite (refresh_check_passed envA body db pA st HvA Hs HrA).
  rewrite (refresh_check_passed envB body db pB st HvB Hs HrB).
  cbn [refresh_resume].
  rewrite (refresh_rotate_fresh envA st db u Hid Hu HfreshA).
  rewrite (refresh_rotate_fresh envB st _ u); [reflexivity | | exact Hu | ].
  - cbn [refreshTokens after_revoke]. rewrite existsb_app.
    apply orb_true_iff. left.
    apply existsb_exists in Hid. destruct Hid as (r & Hin & Hr).
    apply existsb_exists.
    exists (if by_id (RefreshToken.id (row st)) r
            then set_revokedAt (now_revoke envA) r else r).
    split.
    + unfold revoke_id. apply in_map_iff. exists r. auto.
    + rewrite Hr. exact Hr.
  - cbn [refreshTokens after_revoke]. rewrite existsb_app.
    rewrite existsb_by_token_revoke_id, HfreshB. cbn [existsb orb].
    unfold by_token. cbn [issued_row RefreshToken.token].
    rewrite orb_false_r. now apply String.eqb_neq.
Qed.

(** C7 (one token, two requests), as the code has it.  When two /refresh
    requests presenting the same raw token run one after the other, both
    answer, and if the first answers with a new pair the second answers
    401 INVALID_TOKEN.  The update that revokes the presented row is keyed
    by the primary key alone: it succeeds again on a row it has already
    revoked. *)
Theorem refresh_sequential_at_most_once (envA envB : Env) (body : RefreshTokenBody)
  (db : Db) :
  (exists replyA replyB db2,
      refresh_sequential sha256 envA envB body body db = (Normal (replyA, replyB), db2)
      /\ forall accessToken newToken,
           replyA = send_ok (RefreshResult accessToken newToken) ->
           exists message, replyB = send_error 401 "INVALID_TOKEN" message)
  /\ (forall id t0 t,
        existsb (by_id id) (refreshTokens db) = true ->
        fst (refreshToken_update id t (snd (refreshToken_update id t0 db)))
        = Normal tt).
Proof.
  split; [|intros id t0 t; apply update_twice].
  unfold refresh_sequential, bind.
  destruct (refresh_answers sha256 envA body db) as (replyA & db1 & HA).
  destruct (refresh_answers sha256 envB body db1) as (replyB & db2 & HB).
  rewrite HA, HB. exists replyA, replyB, db2. split; [reflexivity|].
  intros accessToken newToken ->.
  pose proof (rotated_row_revoked _ _ _ _ _ _ _ HA) as Hrevoked.
  destruct (refresh_turned_away sha256 envB body db1 Hrevoked) as [[m Hm] _].
  rewrite HB in Hm. simpl in Hm. injection Hm as ->. eauto.
Qed.

End TwoRequests.

(** ** The handlers keep the integrity of the store *)

Section Integrity.

Variable sha256 : string -> string.
Variable verifyPassword : string -> string -> bool.

Lemma fresh_id_unused rows : ~ In (fresh_id rows) (map RefreshToken.id rows).
Proof.
  intros Hin. unfold fresh_id in Hin.
  assert (Hle : Forall (fun k => (k <= list_max (map RefreshToken.id rows))%nat)
                  (map RefreshToken.id rows)) by (apply list_max_le; lia).
  rewrite Forall_forall in Hle. specialize (Hle _ Hin). lia.
Qed.

Lemma map_token_revoke_id id t rows :
  map RefreshToken.token (revoke_id id t rows) = map RefreshToken.token rows.
Proof.
  unfold revoke_id. rewrite map_map. apply map_ext.
  intros r. destruct (by_id id r); reflexivity.
Qed.

Lemma map_id_revoke_token h t rows :
  map RefreshToken.id (revoke_token h t rows) = map RefreshToken.id rows.
Proof.
  unfold revoke_token. rewrite map_map. apply map_ext.
  intros r. destruct (by_token h r); reflexivity.
Qed.

Lemma map_token_revoke_token h t rows :
  map RefreshToken.token (revoke_token h t rows) = map RefreshToken.token rows.
Proof.
  unfold revoke_token. rewrite map_map. apply map_ext.
  intros r. destruct (by_token h r); reflexivity.
Qed.

Lemma existsb_by_token_false h rows :
  existsb (by_token h) rows = false -> ~ In h (map RefreshToken.token rows).
Proof.
  intros Hex Hin. apply in_map_iff in Hin. destruct Hin as (r & Hr & Hin).
  assert (Ht : existsb (by_token h) rows = true).
  { apply existsb_exists. exists r. split; [exact Hin|].
    unfold by_token. now apply String.eqb_eq. }
  congruence.
Qed.

(** Appending a row with an unused key and an unused digest. *)
Lemma store_ok_insert us rows h uid exp :
  store_ok (mkDb us rows) ->
  existsb (by_token h) rows = false ->
  store_ok (mkDb us (rows ++ [RefreshToken.mk (fresh_id rows) h uid exp None])).
Proof.
  intros [Hids Htoks] Hfresh. unfold store_ok. cbn [refreshTokens] in *.
  rewrite !map_app. cbn [map RefreshToken.id RefreshToken.token].
  split; apply NoDup_app; try assumption;
    try (constructor; [simpl; tauto | constructor]);
    intros a Ha [<- | []].
  - exact (fresh_id_unused rows Ha).
  - exact (existsb_by_token_false _ _ Hfresh Ha).
Qed.

Lemma store_ok_revoke_id us rows id t :
  store_ok (mkDb us rows) -> store_ok (mkDb us (revoke_id id t rows)).
Proof.
  unfold store_ok. cbn [refreshTokens].
  now rewrite map_id_revoke_id, map_token_revoke_id.
Qed.

Lemma login_keeps_store_ok env body db :
  store_ok db -> store_ok (snd (login sha256 verifyPassword env body db)).
Proof.
  intros Hok.
  destruct (credentials_dec verifyPassword body db) as [Hb | (u & Hf & Hg)].
  - now rewrite (login_unverified sha256 verifyPassword env body db Hb).
  - rewrite (login_verified sha256 verifyPassword env body db u Hf Hg).
    destruct (negb (User.active u)); [exact Hok|].
    destruct (existsb (by_token _) (refreshTokens db)) eqn:Hc; [exact Hok|].
    cbn [snd]. apply store_ok_insert; [destruct db; exact Hok | exact Hc].
Qed.

Lemma refresh_keeps_store_ok env body db :
  store_ok db -> store_ok (snd (refresh sha256 env body db)).
Proof.
  intros Hok.
  destruct (verifyRefreshToken env (refreshToken body)) as [p|] eqn:Hv.
  2:{ now rewrite refresh_unverified. }
  destruct (rejected env (stored_token (sha256 (refreshToken body)) db)) eqn:Hr.
  { now rewrite (refresh_rejected _ _ _ _ p Hv Hr). }
  destruct (stored_token (sha256 (refreshToken body)) db) as [st|] eqn:Hs;
    [|discriminate].
  rewrite (refresh_passed _ _ _ _ p st Hv Hs Hr).
  assert (Hrev : store_ok (after_revoke env st db)).
  { apply store_ok_revoke_id. destruct db; exact Hok. }
  destruct (user st) as [u|]; [|exact Hrev].
  destruct (existsb (by_token _) (refreshTokens db)) eqn:Hc; [exact Hrev|].
  cbn [snd]. apply (store_ok_insert (users db)); [exact Hrev|].
  cbn [after_revoke refreshTokens]. now rewrite existsb_by_token_revoke_id.
Qed.

Lemma logout_keeps_store_ok env body db :
  store_ok db -> store_ok (snd (logout sha256 env body db)).
Proof.
  unfold store_ok. rewrite logout_eq. cbn [snd refreshTokens].
  now rewrite map_id_revoke_token, map_token_revoke_token.
Qed.

End Integrity.

(** ** The theorems at work on sample data *)

Lemma one_token_db_ok : store_ok Fixture.one_token_db.
Proof.
  split; simpl; (constructor; [simpl; tauto | constructor]).
Defined.





Lemma refresh_usable_iff_witness :
  verifyRefreshToken Fixture.past_expiry (refreshToken Fixture.T0)
  = Some (TokenPayload.mk "u1" "a@x.com" STAFF)
  /\ refresh Fixture.sha256 Fixture.past_expiry Fixture.T0 Fixture.one_token_db
     = (Normal (mkReply 401
                  (ErrorResult "INVALID_TOKEN" "Invalid or expired refresh token")),
        Fixture.one_token_db).
Proof.
  split; [reflexivity|].
  destruct (refresh_usable_iff Fixture.sha256 Fixture.past_expiry Fixture.T0
              Fixture.one_token_db (TokenPayload.mk "u1" "a@x.com" STAFF) eq_refl)
    as (_ & _ & Hexpired).
  apply (Hexpired (mkStored Fixture.alice_row (Some Fixture.alice)));
    reflexivity.
Defined.

(** At the instant of expiry the token is still exchanged, although its
    [expiresAt] is not after the instant of the check. *)
Lemma refresh_at_expiry_instant_counterexample :
  verifyRefreshToken Fixture.at_expiry (refreshToken Fixture.T0) <> None
  /\ refreshed
       (refresh Fixture.sha256 Fixture.at_expiry Fixture.T0 Fixture.one_token_db)
       "access.u1.s1" "refresh.u1.s1"
  /\ ~ (exists st,
          stored_token (Fixture.sha256 (refreshToken Fixture.T0)) Fixture.one_token_db
          = Some st
          /\ RefreshToken.revokedAt (row st) = None
          /\ now_check Fixture.at_expiry < RefreshToken.expiresAt (row st)).
Proof.
  split; [discriminate|]. split; [reflexivity|].
  intros (st & Hs & _ & Hlt).
  vm_compute in Hs. injection Hs as <-.
  vm_compute in Hlt. discriminate.
Qed.

Lemma login_invalid_credentials_witness :
  login Fixture.sha256 Fixture.verifyPassword (Fixture.env_at 1000 "s1")
    Fixture.nobody_login Fixture.empty_db
  = (Normal (mkReply 401
               (ErrorResult "INVALID_CREDENTIALS" "Invalid email or password")),
     Fixture.empty_db)
  /\ fst (login Fixture.sha256 Fixture.verifyPassword (Fixture.env_at 1000 "s1")
            Fixture.alice_typo Fixture.empty_db)
     = fst (login Fixture.sha256 Fixture.verifyPassword (Fixture.env_at 1000 "s1")
              Fixture.nobody_login Fixture.empty_db)
  /\ fst (login Fixture.sha256 Fixture.verifyPassword (Fixture.env_at 1000 "s1")
            Fixture.carol_login Fixture.empty_db)
     = fst (login Fixture.sha256 Fixture.verifyPassword (Fixture.env_at 1000 "s1")
              Fixture.nobody_login Fixture.empty_db).
Proof.
  assert (Hnobody : bad_credentials Fixture.verifyPassword Fixture.nobody_login
                      Fixture.empty_db) by (left; reflexivity).
  destruct (login_invalid_credentials Fixture.sha256 Fixture.verifyPassword
              (Fixture.env_at 1000 "s1") Fixture.nobody_login Fixture.empty_db Hnobody)
    as [Hreply Hsame].
  split; [exact Hreply|]. split; apply Hsame.
  - right. right. exists Fixture.alice, "bcrypt:secret123".
    repeat split; reflexivity.
  - right. left. exists Fixture.carol. split; [reflexivity | left; reflexivity].
Defined.

Lemma login_disabled_witness :
  login Fixture.sha256 Fixture.verifyPassword (Fixture.env_at 1000 "s1")
    Fixture.bob_login Fixture.empty_db
  = (Normal (mkReply 403 (ErrorResult "ACCOUNT_DISABLED" "Account is disabled")),
     Fixture.empty_db).
Proof.
  apply (login_disabled Fixture.sha256 Fixture.verifyPassword
           (Fixture.env_at 1000 "s1") Fixture.bob_login Fixture.empty_db Fixture.bob
           eq_refl eq_refl).
  exists "bcrypt:hunter2!".
  split; [reflexivity|]. split; [discriminate | reflexivity].
Defined.

Lemma login_error_store_unchanged_witness :
  login Fixture.sha256 Fixture.verifyPassword (Fixture.env_at 1000 "s1")
    Fixture.bob_login Fixture.one_token_db
  = (Normal ACCOUNT_DISABLED, Fixture.one_token_db)
  /\ Fixture.one_token_db = Fixture.one_token_db
  /\ (ACCOUNT_DISABLED = INVALID_CREDENTIALS \/ ACCOUNT_DISABLED = ACCOUNT_DISABLED).
Proof.
  split; [reflexivity|].
  apply (login_error_store_unchanged Fixture.sha256 Fixture.verifyPassword
           (Fixture.env_at 1000 "s1") Fixture.bob_login Fixture.one_token_db
           Fixture.one_token_db ACCOUNT_DISABLED "ACCOUNT_DISABLED"
           "Account is disabled");
    reflexivity.
Defined.

Lemma refresh_turned_away_store_unchanged_witness :
  InvalidTokenError
    (refresh Fixture.sha256 (Fixture.env_at 2000 "s2") Fixture.T0 Fixture.rotated_db)
  /\ snd (refresh Fixture.sha256 (Fixture.env_at 2000 "s2") Fixture.T0
            Fixture.rotated_db)
     = Fixture.rotated_db.
Proof.
  apply refresh_turned_away_store_unchanged.
  right. right.
  exists (mkStored (set_revokedAt 1000 Fixture.alice_row) (Some Fixture.alice)).
  split; [reflexivity|]. left. discriminate.
Defined.

(** The issued token is one already stored: /refresh answers with an error
    and yet the presented row has been revoked. *)
Lemma refresh_conflict_counterexample :
  InvalidTokenError
    (refresh Fixture.sha256 Fixture.same_serial Fixture.T0 Fixture.one_token_db)
  /\ snd (refresh Fixture.sha256 Fixture.same_serial Fixture.T0 Fixture.one_token_db)
     = mkDb Fixture.people [set_revokedAt 1000 Fixture.alice_row]
  /\ snd (refresh Fixture.sha256 Fixture.same_serial Fixture.T0 Fixture.one_token_db)
     <> Fixture.one_token_db.
Proof.
  split; [exists "Invalid refresh token"; reflexivity|].
  split; [reflexivity|].
  vm_compute. discriminate.
Qed.

Lemma insert_conflict_not_retried_witness :
  login Fixture.sha256 Fixture.verifyPassword Fixture.same_serial
    Fixture.alice_login Fixture.one_token_db
  = (Throw P2002, Fixture.one_token_db)
  /\ refresh Fixture.sha256 Fixture.same_serial Fixture.T0 Fixture.one_token_db
     = (Normal (mkReply 401 (ErrorResult "INVALID_TOKEN" "Invalid refresh token")),
        mkDb Fixture.people [set_revokedAt 1000 Fixture.alice_row]).
Proof.
  destruct (insert_conflict_not_retried Fixture.sha256 Fixture.verifyPassword
              Fixture.same_serial Fixture.one_token_db Fixture.alice eq_refl)
    as [Hlogin Hrefresh].
  split.
  - apply Hlogin; [reflexivity | | reflexivity].
    exists "bcrypt:secret123".
    split; [reflexivity|]. split; [discriminate | reflexivity].
  - apply (Hrefresh Fixture.T0 (TokenPayload.mk "u1" "a@x.com" STAFF)
             (mkStored Fixture.alice_row (Some Fixture.alice)));
      reflexivity.
Defined.

(** The insert of /login conflicts: the error leaves the handler and no
    second token is tried. *)
Lemma login_conflict_counterexample :
  login Fixture.sha256 Fixture.verifyPassword Fixture.same_serial
    Fixture.alice_login Fixture.one_token_db
  = (Throw P2002, Fixture.one_token_db).
Proof. reflexivity. Qed.

(** Two requests present [T0]; both pass the guard before either revokes,
    and both are answered with a new pair. *)
Lemma refresh_interleaved_counterexample :
  refresh_interleaved Fixture.sha256 (Fixture.env_at 1000 "s1")
    (Fixture.env_at 1001 "s2") Fixture.T0 Fixture.T0 Fixture.one_token_db
  = (Normal (send_ok (RefreshResult "access.u1.s1" "refresh.u1.s1"),
             send_ok (RefreshResult "access.u1.s2" "refresh.u1.s2")),
     mkDb Fixture.people
       [set_revokedAt 1001 Fixture.alice_row;
        RefreshToken.mk 2 (Fixture.sha256 "refresh.u1.s1") "u1"
          (1000 + SEVEN_DAYS_MS) None;
        RefreshToken.mk 3 (Fixture.sha256 "refresh.u1.s2") "u1"
          (1001 + SEVEN_DAYS_MS) None]).
Proof. reflexivity. Qed.

(** ** User administration *)

Section Administration.

Lemma in_patch_id id p rows r' :
  In r' (patch_id id p rows) ->
  exists r, In r rows /\ (r' = r \/ (row_by_id id r = true /\ r' = apply_patch p r)).
Proof.
  unfold patch_id. intros Hin. apply in_map_iff in Hin.
  destruct Hin as (r & Hr & Hin). exists r. split; [exact Hin|].
  destruct (row_by_id id r); [right | left]; auto.
Qed.

Lemma apply_patch_id p r :
  User.id (UserRow.user (apply_patch p r)) = User.id (UserRow.user r).
Proof. reflexivity. Qed.

Lemma map_id_patch_id id p rows :
  map (fun r => User.id (UserRow.user r)) (patch_id id p rows)
  = map (fun r => User.id (UserRow.user r)) rows.
Proof.
  unfold patch_id. rewrite map_map. apply map_ext.
  intros r. destruct (row_by_id id r); reflexivity.
Qed.

(** What a request leaves in the users table: the table itself, the table
    with one row appended, or the table patched at one id. *)
Lemma admin_route_shape cur req env s :
  let s' := snd (adminUserRoutes cur req env s) in
  tokenRows s' = tokenRows s
  /\ (userRows s' = userRows s
      \/ (exists body,
            req = POST_user (Some body)
            /\ is_admin (TokenPayload.role cur) = true
            /\ (is_assign_ADMIN (Some (CreateUser.role body))
                && negb (is_SUPER_ADMIN (TokenPayload.role cur)) = false)
            /\ existsb (row_by_id (cuid env)) (userRows s) = false
            /\ existsb (row_by_email (CreateUser.email body)) (userRows s) = false
            /\ userRows s' =
                 userRows s
                 ++ [UserRow.mk
                       (User.mk (cuid env) (CreateUser.email body)
                          (Some (hashPassword env (CreateUser.password body)))
                          (CreateUser.name body) (role_of (CreateUser.role body)) true)
                       (created_now env)])
      \/ (exists id p,
            is_admin (TokenPayload.role cur) = true
            /\ (req = DELETE_user id /\ p = mkPatch None None None None (Some false)
                \/ exists body,
                     req = PATCH_user id (Some body)
                     /\ p = updateData env body
                     /\ (is_assign_ADMIN (UpdateUser.role body)
                         && negb (is_SUPER_ADMIN (TokenPayload.role cur)) = false))
            /\ email_taken id p (userRows s) = false
            /\ userRows s' = patch_id id p (userRows s))).
Proof.
  destruct req as [body | id body | id]; cbn [adminUserRoutes].
  - unfold createUser.
    destruct (is_admin (TokenPayload.role cur)) eqn:Hadm; cbn [negb]; [|simpl; auto].
    destruct body as [body|]; [|simpl; auto].
    destruct (is_assign_ADMIN _ && _) eqn:Hesc; [simpl; auto|].
    destruct (find _ (userRows s)); [simpl; auto|].
    unfold user_create. cbn [UserRow.user User.id User.email].
    destruct (existsb (row_by_id (cuid env)) (userRows s)) eqn:Hid;
      [simpl; auto|].
    destruct (existsb (row_by_email (CreateUser.email body)) (userRows s)) eqn:Hem;
      [simpl; auto|].
    cbn [orb snd tokenRows userRows]. split; [reflexivity|].
    right. left. exists body. repeat split; reflexivity || assumption.
  - unfold updateUser.
    destruct (is_admin (TokenPayload.role cur)) eqn:Hadm; cbn [negb]; [|simpl; auto].
    destruct body as [body|]; [|simpl; auto].
    destruct (is_assign_ADMIN _ && _) eqn:Hesc; [simpl; auto|].
    unfold user_update.
    destruct (find (row_by_id id) (userRows s)); [|simpl; auto].
    destruct (email_taken id (updateData env body) (userRows s)) eqn:Htaken;
      [simpl; auto|].
    cbn [snd tokenRows userRows]. split; [reflexivity|].
    right. right. exists id, (updateData env body).
    repeat split; try assumption; try reflexivity.
    right. exists body. auto.
  - unfold deactivateUser.
    destruct (is_admin (TokenPayload.role cur)) eqn:Hadm; cbn [negb]; [|simpl; auto].
    destruct (String.eqb id (TokenPayload.id cur)); [simpl; auto|].
    unfold user_update.
    destruct (find (row_by_id id) (userRows s)); [|simpl; auto].
    cbn [email_taken set_email snd tokenRows userRows].
    split; [reflexivity|].
    right. right. exists id, (mkPatch None None None None (Some false)).
    repeat split; try assumption; try reflexivity.
    left. auto.
Qed.

Lemma is_SUPER_ADMIN_true role : is_SUPER_ADMIN role = true -> role = SUPER_ADMIN.
Proof. destruct role; [reflexivity | discriminate ..]. Qed.

(** Where a role held after a request comes from: it was held before, or
    the body of the request names it -- and names ADMIN only when the
    caller is a SUPER_ADMIN. *)
Lemma admin_route_role_sources cur req env s role i :
  holds_role role (snd (adminUserRoutes cur req env s)) i ->
  holds_role role s i
  \/ exists a,
       role = role_of a
       /\ (a = Assignable.ADMIN -> TokenPayload.role cur = SUPER_ADMIN).
Proof.
  intros (r' & Hin & Hid & Hrole).
  destruct (admin_route_shape cur req env s) as [_ Hshape].
  destruct Hshape as [Hrows | [(body & _ & _ & Hesc & _ & _ & Hrows)
                              | (id & p & _ & Hreq & _ & Hrows)]];
    rewrite Hrows in Hin.
  - left. exists r'. auto.
  - apply in_app_or in Hin. destruct Hin as [Hin | [<- | []]].
    + left. exists r'. auto.
    + right. exists (CreateUser.role body). split; [now rewrite <- Hrole|].
      intros Ha. rewrite Ha in Hesc. cbn [is_assign_ADMIN andb] in Hesc.
      apply is_SUPER_ADMIN_true. now apply negb_false_iff.
  - apply in_patch_id in Hin. destruct Hin as (r & Hr & [-> | [_ ->]]).
    + left. exists r. auto.
    + cbn [apply_patch UserRow.user User.role] in Hrole.
      destruct Hreq as [[_ ->] | (body & _ & -> & Hesc)].
      * left. exists r. auto.
      * cbn [updateData set_role] in Hrole.
        destruct (UpdateUser.role body) as [a|]; cbn [option_map or_keep] in Hrole.
        -- right. exists a. split; [now rewrite <- Hrole|].
           intros ->. cbn [is_assign_ADMIN andb] in Hesc.
           apply is_SUPER_ADMIN_true. now apply negb_false_iff.
        -- left. exists r. auto.
Qed.

(** X1 (roles are granted from above).  Whatever the request and whoever
    sends it, the admin routes make no one a SUPER_ADMIN: every row holding
    that role afterwards held it before.  And unless the caller is a
    SUPER_ADMIN they make no one an ADMIN either. *)
Theorem admin_routes_grant_no_privilege (cur : TokenPayload.t) (req : AdminRequest)
  (env : AdminEnv) (s : Store) :
  let s' := snd (adminUserRoutes cur req env s) in
  (forall id, holds_role SUPER_ADMIN s' id -> holds_role SUPER_ADMIN s id)
  /\ (TokenPayload.role cur <> SUPER_ADMIN ->
      forall id, holds_role ADMIN s' id -> holds_role ADMIN s id).
Proof.
  intros s'. split.
  - intros id H.
    destruct (admin_route_role_sources _ _ _ _ _ _ H) as [Hold | (a & Ha & _)];
      [exact Hold|].
    destruct a; discriminate Ha.
  - intros Hcur id H.
    destruct (admin_route_role_sources _ _ _ _ _ _ H) as [Hold | (a & Ha & Hsuper)];
      [exact Hold|].
    destruct a; try discriminate Ha. exfalso. now apply Hcur, Hsuper.
Qed.

(** X2 (soft delete only).  No admin route removes or reorders a row or
    changes a primary key, and none writes the refresh-token table: the ids
    of the users table before a request are the first ids of the table
    after it, and the token rows are the same. *)
Theorem admin_routes_keep_rows (cur : TokenPayload.t) (req : AdminRequest)
  (env : AdminEnv) (s : Store) :
  let s' := snd (adminUserRoutes cur req env s) in
  tokenRows s' = tokenRows s
  /\ exists added,
       map (fun r => User.id (UserRow.user r)) (userRows s')
       = map (fun r => User.id (UserRow.user r)) (userRows s) ++ added
       /\ (length added <= 1)%nat.
Proof.
  intros s'.
  destruct (admin_route_shape cur req env s) as [Htok Hshape]. fold s' in Htok, Hshape.
  split; [exact Htok|].
  destruct Hshape as [Hrows | [(body & _ & _ & _ & _ & _ & Hrows)
                              | (id & p & _ & _ & _ & Hrows)]]; rewrite Hrows.
  - exists []. rewrite app_nil_r. auto.
  - exists [cuid env]. rewrite map_app. auto.
  - exists []. rewrite app_nil_r, map_id_patch_id. auto.
Qed.

Lemma find_row_by_id_patch_id i id p rows :
  find (row_by_id i) (patch_id id p rows)
  = option_map (fun r => if row_by_id id r then apply_patch p r else r)
      (find (row_by_id i) rows).
Proof.
  induction rows as [|r rows IH]; simpl; [reflexivity|].
  assert (Hsame : row_by_id i (if row_by_id id r then apply_patch p r else r)
                  = row_by_id i r)
    by (destruct (row_by_id id r) eqn:E; first [reflexivity | exact E]).
  rewrite Hsame. destruct (row_by_id i r); [reflexivity | exact IH].
Qed.

Lemma patch_id_absent id p rows :
  existsb (row_by_id id) rows = false -> patch_id id p rows = rows.
Proof.
  induction rows as [|a rows IH]; simpl; [reflexivity|].
  intros H. apply orb_false_iff in H. destruct H as [Ha Hrows].
  rewrite Ha. f_equal. now apply IH.
Qed.

(** With unique primary keys, patching an id rewrites one row. *)
Lemma patch_id_split id p rows r :
  NoDup (map (fun r => User.id (UserRow.user r)) rows) ->
  find (row_by_id id) rows = Some r ->
  exists before after,
    rows = before ++ r :: after
    /\ patch_id id p rows = before ++ apply_patch p r :: after
    /\ existsb (row_by_id id) (before ++ after) = false.
Proof.
  induction rows as [|a rows IH]; simpl; intros Hnd Hf; [discriminate|].
  inversion Hnd as [|? ? Hnotin Hnd']; subst.
  destruct (row_by_id id a) eqn:Ea.
  - injection Hf as ->. exists [], rows.
    assert (Hrest : existsb (row_by_id id) rows = false).
    { destruct (existsb (row_by_id id) rows) eqn:Hex; [|reflexivity].
      exfalso. apply Hnotin. apply existsb_exists in Hex.
      destruct Hex as (x & Hx & Hid). apply in_map_iff. exists x.
      split; [|exact Hx]. unfold row_by_id in *.
      apply String.eqb_eq in Ea, Hid. congruence. }
    repeat split; [|exact Hrest]. simpl. f_equal. now apply patch_id_absent.
  - destruct (IH Hnd' Hf) as (before & after & Hrows & Hpatch & Hrest).
    exists (a :: before), after. repeat split.
    + simpl. now f_equal.
    + simpl. now f_equal.
    + simpl. now rewrite Ea.
Qed.

Lemma NoDup_replace {A : Type} (l1 l2 : list A) (a b : A) :
  NoDup (l1 ++ a :: l2) -> ~ In b (l1 ++ l2) -> NoDup (l1 ++ b :: l2).
Proof.
  induction l1 as [|x l1 IH]; simpl; intros Hnd Hb.
  - inversion Hnd; subst. now constructor.
  - inversion Hnd as [|? ? Hx Hnd']; subst. constructor.
    + intros Hin. apply in_app_or in Hin. destruct Hin as [Hin | [-> | Hin]].
      * apply Hx. apply in_or_app. now left.
      * apply Hb. now left.
      * apply Hx. apply in_or_app. right. now right.
    + apply IH; [exact Hnd'|]. intros Hin. apply Hb. now right.
Qed.

Lemma email_free e id rows :
  existsb (fun r => row_by_email e r && negb (row_by_id id r)) rows = false ->
  existsb (row_by_id id) rows = false ->
  ~ In e (map (fun r => User.email (UserRow.user r)) rows).
Proof.
  intros Hfree Hid Hin. apply in_map_iff in Hin. destruct Hin as (r & He & Hin).
  assert (Hr : row_by_id id r = false).
  { destruct (row_by_id id r) eqn:E; [|reflexivity].
    assert (existsb (row_by_id id) rows = true)
      by (apply existsb_exists; eauto).
    congruence. }
  assert (existsb (fun r => row_by_email e r && negb (row_by_id id r)) rows = true).
  { apply existsb_exists. exists r. split; [exact Hin|].
    rewrite Hr. unfold row_by_email. rewrite He, String.eqb_refl. reflexivity. }
  congruence.
Qed.

(** X3 (unique ids and emails).  Every admin request, whatever its outcome,
    leaves primary keys and emails unique if they were. *)
Theorem admin_routes_keep_users_ok (cur : TokenPayload.t) (req : AdminRequest)
  (env : AdminEnv) (s : Store) :
  users_ok s -> users_ok (snd (adminUserRoutes cur req env s)).
Proof.
  intros [Hids Hemails]. unfold users_ok.
  destruct (admin_route_shape cur req env s) as [_ Hshape].
  destruct Hshape as [Hrows | [(body & _ & _ & _ & Hid & Hem & Hrows)
                              | (id & p & _ & _ & Htaken & Hrows)]]; rewrite Hrows.
  - auto.
  - rewrite !map_app. cbn [map UserRow.user User.id User.email].
    split; apply NoDup_app; try assumption;
      try (constructor; [simpl; tauto | constructor]);
      intros a Ha [<- | []]; apply in_map_iff in Ha;
      destruct Ha as (r & Hr & Hin).
    + assert (existsb (row_by_id (cuid env)) (userRows s) = true).
      { apply existsb_exists. exists r. split; [exact Hin|].
        unfold row_by_id. now apply String.eqb_eq. }
      congruence.
    + assert (existsb (row_by_email (CreateUser.email body)) (userRows s) = true).
      { apply existsb_exists. exists r. split; [exact Hin|].
        unfold row_by_email. now apply String.eqb_eq. }
      congruence.
  - rewrite map_id_patch_id. split; [exact Hids|].
    destruct (find (row_by_id id) (userRows s)) as [r|] eqn:Hf.
    2:{ rewrite patch_id_absent; [exact Hemails|].
        destruct (existsb (row_by_id id) (userRows s)) eqn:Hex; [|reflexivity].
        apply existsb_exists in Hex. destruct Hex as (x & Hx & Hid).
        destruct (find_none _ _ Hf x Hx). congruence. }
    destruct (patch_id_split id p _ r Hids Hf)
      as (before & after & Hsplit & Hpatch & Hrest).
    rewrite Hpatch. rewrite Hsplit in Hemails, Htaken.
    rewrite map_app in *. cbn [map] in *.
    cbn [apply_patch UserRow.user User.email].
    destruct (set_email p) as [e|] eqn:He; cbn [or_keep]; [|exact Hemails].
    apply (NoDup_replace _ _ _ e Hemails).
    rewrite <- map_app. apply (email_free e id); [|exact Hrest].
    unfold email_taken in Htaken. rewrite He in Htaken.
    rewrite existsb_app in Htaken. cbn [existsb] in Htaken.
    rewrite existsb_app.
    apply orb_false_iff in Htaken. destruct Htaken as [H1 H2].
    apply orb_false_iff in H2. destruct H2 as [_ H2].
    now rewrite H1, H2.
Qed.

(** X8 (the gate comes first).  A caller whose role is MANAGER or STAFF is
    answered 403 [{ error: "Forbidden" }] by every admin route and nothing
    is written, whether or not the body parses or the addressed user
    exists. *)
Theorem admin_routes_forbidden (cur : TokenPayload.t) (req : AdminRequest)
  (env : AdminEnv) (s : Store) :
  TokenPayload.role cur = MANAGER \/ TokenPayload.role cur = STAFF ->
  adminUserRoutes cur req env s
  = (Replied (mkAdminReply 403 (ErrorPayload "Forbidden")), s).
Proof.
  intros Hrole.
  assert (Hgate : negb (is_admin (TokenPayload.role cur)) = true)
    by (destruct Hrole as [-> | ->]; reflexivity).
  destruct req; cbn [adminUserRoutes];
    unfold createUser, updateUser, deactivateUser; now rewrite Hgate.
Qed.

(** X9 (no row for the id).  For an admin caller, PATCH /:id with a body
    that parses and passes the ADMIN check, and DELETE /:id of an id other
    than the caller's, do not answer when no user has the id: the P2025 of
    the update leaves the handler and nothing is written. *)
Theorem unknown_id_raises (cur : TokenPayload.t) (id : string) (env : AdminEnv)
  (s : Store) :
  is_admin (TokenPayload.role cur) = true ->
  find (row_by_id id) (userRows s) = None ->
  (forall body,
      is_assign_ADMIN (UpdateUser.role body)
      && negb (is_SUPER_ADMIN (TokenPayload.role cur)) = false ->
      updateUser cur id (Some body) env s = (Raised (PrismaError P2025), s))
  /\ (id <> TokenPayload.id cur ->
      deactivateUser cur id s = (Raised (PrismaError P2025), s)).
Proof.
  intros Hadm Hnone. split.
  - intros body Hesc. unfold updateUser, user_update.
    now rewrite Hadm, Hesc, Hnone.
  - intros Hother. unfold deactivateUser, user_update. rewrite Hadm, Hnone.
    cbn [negb]. apply String.eqb_neq in Hother. now rewrite Hother.
Qed.

(** X10 (an email in use).  For an admin caller and a body that parses and
    passes the ADMIN check: POST / with an email some user has answers
    409 "Email already exists"; PATCH /:id giving an existing user the email
    of another user does not answer, the P2002 of the update leaves the
    handler.  Neither writes anything. *)
Theorem taken_email (cur : TokenPayload.t) (env : AdminEnv) (s : Store)
  (other : UserRow.t) :
  is_admin (TokenPayload.role cur) = true ->
  In other (userRows s) ->
  (forall body,
      is_assign_ADMIN (Some (CreateUser.role body))
      && negb (is_SUPER_ADMIN (TokenPayload.role cur)) = false ->
      CreateUser.email body = User.email (UserRow.user other) ->
      createUser cur (Some body) env s
      = (Replied (mkAdminReply 409 (ErrorPayload "Email already exists")), s))
  /\ (forall id body r,
        is_assign_ADMIN (UpdateUser.role body)
        && negb (is_SUPER_ADMIN (TokenPayload.role cur)) = false ->
        find (row_by_id id) (userRows s) = Some r ->
        UpdateUser.email body = Some (User.email (UserRow.user other)) ->
        User.id (UserRow.user other) <> id ->
        updateUser cur id (Some body) env s = (Raised (PrismaError P2002), s)).
Proof.
  intros Hadm Hin. split.
  - intros body Hesc Hemail. unfold createUser. rewrite Hadm, Hesc. cbn [negb].
    destruct (find (row_by_email (CreateUser.email body)) (userRows s)) eqn:Hf;
      [reflexivity|].
    exfalso. apply (find_none _ _ Hf) in Hin.
    unfold row_by_email in Hin. rewrite Hemail, String.eqb_refl in Hin.
    discriminate.
  - intros id body r Hesc Hf Hemail Hother.
    unfold updateUser, user_update. rewrite Hadm, Hesc, Hf. cbn [negb].
    assert (Htaken : email_taken id (updateData env body) (userRows s) = true).
    { unfold email_taken. cbn [updateData set_email]. rewrite Hemail.
      apply existsb_exists. exists other. split; [exact Hin|].
      unfold row_by_email, row_by_id. rewrite String.eqb_refl.
      apply String.eqb_neq in Hother. now rewrite Hother. }
    now rewrite Htaken.
Qed.

(** X11 (deactivating oneself).  DELETE /:id refuses the caller's own id
    with 400 "Cannot deactivate yourself"; PATCH /:id with
    [{ active: false }] on the same id is carried out, and the caller's row
    is inactive afterwards. *)
Theorem self_deactivation_by_patch (cur : TokenPayload.t) (env : AdminEnv)
  (s : Store) (r : UserRow.t) :
  is_admin (TokenPayload.role cur) = true ->
  find (row_by_id (TokenPayload.id cur)) (userRows s) = Some r ->
  let off := UpdateUser.mk None None None None (Some false) in
  let s' := snd (updateUser cur (TokenPayload.id cur) (Some off) env s) in
  deactivateUser cur (TokenPayload.id cur) s
  = (Replied (mkAdminReply 400 (ErrorPayload "Cannot deactivate yourself")), s)
  /\ fst (updateUser cur (TokenPayload.id cur) (Some off) env s)
     = Replied (mkAdminReply 200
                  (UserPayload
                     (UserView.mk (User.id (UserRow.user r)) (User.email (UserRow.user r))
                        (User.name (UserRow.user r)) (User.role (UserRow.user r))
                        false (UserRow.createdAt r))))
  /\ exists r',
       find (row_by_id (TokenPayload.id cur)) (userRows s') = Some r'
       /\ User.active (UserRow.user r') = false.
Proof.
  intros Hadm Hf off s'. split; [|split].
  - unfold deactivateUser. now rewrite Hadm, String.eqb_refl.
  - unfold updateUser, user_update. rewrite Hadm, Hf. reflexivity.
  - unfold s', updateUser, user_update. rewrite Hadm, Hf.
    cbn [negb is_assign_ADMIN UpdateUser.role off andb email_taken updateData
         set_email UpdateUser.email snd userRows].
    rewrite find_row_by_id_patch_id, Hf. cbn [option_map].
    apply find_some in Hf. destruct Hf as [_ Hf]. rewrite Hf.
    eexists. split; reflexivity.
Qed.

End Administration.

(** ** Administration and sessions together *)

Section AdministrationAndSessions.

Variable sha256 : string -> string.
Variable verifyPassword : string -> string -> bool.

Lemma find_by_email_rows e rows :
  find (by_email e) (map UserRow.user rows)
  = option_map UserRow.user (find (row_by_email e) rows).
Proof.
  induction rows as [|r rows IH]; simpl; [reflexivity|].
  change (by_email e (UserRow.user r)) with (row_by_email e r).
  destruct (row_by_email e r); [reflexivity | exact IH].
Qed.

Lemma find_by_user_id_rows i rows :
  find (by_user_id i) (map UserRow.user rows)
  = option_map UserRow.user (find (row_by_id i) rows).
Proof.
  induction rows as [|r rows IH]; simpl; [reflexivity|].
  change (by_user_id i (UserRow.user r)) with (row_by_id i r).
  destruct (row_by_id i r); [reflexivity | exact IH].
Qed.

Lemma find_row_by_email_patch_id e id p rows :
  set_email p = None ->
  find (row_by_email e) (patch_id id p rows)
  = option_map (fun r => if row_by_id id r then apply_patch p r else r)
      (find (row_by_email e) rows).
Proof.
  intros Hp. induction rows as [|r rows IH]; simpl; [reflexivity|].
  replace (row_by_email e (if row_by_id id r then apply_patch p r else r))
    with (row_by_email e r).
  2:{ destruct (row_by_id id r); [|reflexivity].
      unfold row_by_email. cbn [apply_patch UserRow.user User.email].
      now rewrite Hp. }
  destruct (row_by_email e r); [reflexivity | exact IH].
Qed.

(** X4 (create, then log in).  Once POST / has answered 201 for a body,
    /login with the email and password of that body is answered 200 with
    the summary of the new user -- given that the password verifies against
    the hash stored for it, that this hash is not the empty string, and
    that the refresh token issued is not one already stored. *)
Theorem created_user_can_login (cur : TokenPayload.t) (body : CreateUser.t)
  (env : AdminEnv) (s s' : Store) (created : AdminPayload) (lenv : Env) :
  createUser cur (Some body) env s = (Replied (mkAdminReply 201 created), s') ->
  verifyPassword (CreateUser.password body)
    (hashPassword env (CreateUser.password body)) = true ->
  hashPassword env (CreateUser.password body) <> "" ->
  let claims :=
    TokenPayload.mk (cuid env) (CreateUser.email body) (role_of (CreateUser.role body)) in
  existsb (by_token (sha256 (signRefreshToken lenv claims))) (tokenRows s') = false ->
  fst (login sha256 verifyPassword lenv
         (mkLogin (CreateUser.email body) (CreateUser.password body)) (db_of s'))
  = Normal
      (mkReply 200
         (LoginResult (signAccessToken lenv claims) (signRefreshToken lenv claims)
            (UserSummary.mk (cuid env) (CreateUser.email body) (CreateUser.name body)
               (role_of (CreateUser.role body))))).
Proof.
  intros Hcreate Hverify Hhash claims Hfresh.
  unfold createUser in Hcreate.
  destruct (negb (is_admin (TokenPayload.role cur))); [discriminate|].
  destruct (is_assign_ADMIN _ && _); [discriminate|].
  destruct (find (row_by_email (CreateUser.email body)) (userRows s)) eqn:Hfind;
    [discriminate|].
  destruct (user_create _ s) as [e|s1] eqn:Hins; [discriminate|].
  injection Hcreate as _ <-.
  unfold user_create in Hins.
  destruct (_ || _); [discriminate|]. injection Hins as <-.
  set (u := User.mk (cuid env) (CreateUser.email body)
              (Some (hashPassword env (CreateUser.password body)))
              (CreateUser.name body) (role_of (CreateUser.role body)) true).
  assert (Hu : find (by_email (CreateUser.email body))
                 (users (db_of (mkStore (userRows s ++ [UserRow.mk u (created_now env)])
                                  (tokenRows s))))
               = Some u).
  { cbn [db_of users userRows]. rewrite find_by_email_rows, find_app_last, Hfind.
    unfold row_by_email. cbn [UserRow.user User.email u].
    now rewrite String.eqb_refl. }
  rewrite (login_verified sha256 verifyPassword lenv
             (mkLogin (CreateUser.email body) (CreateUser.password body)) _ u Hu).
  - cbn [User.active u negb]. cbn [db_of refreshTokens tokenRows] in *.
    change (claims_of u) with claims. rewrite Hfresh. reflexivity.
  - exists (hashPassword env (CreateUser.password body)). auto.
Qed.

(** X5 (deactivate, then log in).  Once DELETE /:id has answered
    [{ success: true }], the user with that id is answered 403
    ACCOUNT_DISABLED by /login when the credentials verify; the login
    writes nothing. *)
Theorem deactivated_user_cannot_login (cur : TokenPayload.t) (id : string)
  (s s' : Store) (lenv : Env) (body : LoginBody) (u : User.t) :
  deactivateUser cur id s = (Replied (mkAdminReply 200 (SuccessPayload true)), s') ->
  find (by_email (email body)) (users (db_of s)) = Some u ->
  User.id u = id ->
  good_credentials verifyPassword body u ->
  login sha256 verifyPassword lenv body (db_of s')
  = (Normal (mkReply 403 (ErrorResult "ACCOUNT_DISABLED" "Account is disabled")),
     db_of s').
Proof.
  intros Hdel Hfind Hid Hgood.
  unfold deactivateUser in Hdel.
  destruct (negb (is_admin (TokenPayload.role cur))); [discriminate|].
  destruct (String.eqb id (TokenPayload.id cur)); [discriminate|].
  unfold user_update in Hdel.
  destruct (find (row_by_id id) (userRows s)); [|discriminate].
  cbn [email_taken set_email] in Hdel. injection Hdel as <-.
  cbn [db_of users userRows] in Hfind. rewrite find_by_email_rows in Hfind.
  destruct (find (row_by_email (email body)) (userRows s)) as [r|] eqn:Hrow;
    [|discriminate].
  injection Hfind as <-.
  set (p := mkPatch None None None None (Some false)).
  assert (Hu : find (by_email (email body))
                 (users (db_of (mkStore (patch_id id p (userRows s)) (tokenRows s))))
               = Some (UserRow.user (apply_patch p r))).
  { cbn [db_of users userRows].
    rewrite find_by_email_rows, find_row_by_email_patch_id, Hrow by reflexivity.
    cbn [option_map]. unfold row_by_id. rewrite Hid, String.eqb_refl. reflexivity. }
  rewrite (login_verified sha256 verifyPassword lenv body _ _ Hu).
  - reflexivity.
  - exact Hgood.
Qed.

(** /refresh reads of a user only what the tokens are signed over. *)
Lemma refresh_reads_claims_only env body db db' :
  refreshTokens db' = refreshTokens db ->
  (forall i, option_map claims_of (find (by_user_id i) (users db'))
             = option_map claims_of (find (by_user_id i) (users db))) ->
  fst (refresh sha256 env body db') = fst (refresh sha256 env body db)
  /\ refreshTokens (snd (refresh sha256 env body db'))
     = refreshTokens (snd (refresh sha256 env body db)).
Proof.
  intros Htok Hclaims.
  destruct (verifyRefreshToken env (refreshToken body)) as [p|] eqn:Hv.
  2:{ rewrite !refresh_unverified by assumption. auto. }
  set (h := sha256 (refreshToken body)).
  destruct (find (by_token h) (refreshTokens db)) as [r|] eqn:Hf.
  2:{ rewrite !(refresh_rejected sha256 env body _ p Hv); auto;
        unfold stored_token; fold h; rewrite ?Htok, Hf; reflexivity. }
  assert (Hs : stored_token h db
               = Some (mkStored r (find (by_user_id (RefreshToken.userId r)) (users db))))
    by (unfold stored_token; now rewrite Hf).
  assert (Hs' : stored_token h db'
                = Some (mkStored r (find (by_user_id (RefreshToken.userId r)) (users db'))))
    by (unfold stored_token; now rewrite Htok, Hf).
  destruct (truthy_date (RefreshToken.revokedAt r)
            || (RefreshToken.expiresAt r <? now_check env)) eqn:Hr.
  { rewrite !(refresh_rejected sha256 env body _ p Hv); auto;
      fold h; rewrite ?Hs, ?Hs'; exact Hr. }
  rewrite (refresh_passed sha256 env body db p _ Hv Hs Hr).
  rewrite (refresh_passed sha256 env body db' p _ Hv Hs' Hr).
  cbn [user]. specialize (Hclaims (RefreshToken.userId r)).
  destruct (find (by_user_id (RefreshToken.userId r)) (users db)) as [u|];
    destruct (find (by_user_id (RefreshToken.userId r)) (users db')) as [u'|];
    cbn [option_map] in Hclaims; try discriminate.
  - assert (Hc : claims_of u' = claims_of u) by congruence.
    rewrite Hc, Htok.
    destruct (existsb (by_token _) (refreshTokens db)); cbn [fst snd refreshTokens].
    + unfold after_revoke. cbn [refreshTokens row]. now rewrite Htok.
    + split; [reflexivity|].
      unfold after_revoke, issued_row. cbn [refreshTokens row].
      rewrite Htok, Hc.
      replace (User.id u') with (User.id u)
        by (change (TokenPayload.id (claims_of u) = TokenPayload.id (claims_of u'));
            now rewrite Hc).
      reflexivity.
  - cbn [fst snd]. unfold after_revoke. cbn [refreshTokens row]. now rewrite Htok.
Qed.

(** X6 (sessions outlive a deactivation).  DELETE /:id, and PATCH /:id
    with a body that sets neither email nor role (a password change, a
    deactivation through [active: false]), leave every /refresh answered as
    it would have been before: a refresh token of the user concerned that
    was exchangeable still is. *)
Theorem sessions_survive_deactivation (cur : TokenPayload.t) (req : AdminRequest)
  (env : AdminEnv) (s : Store) (lenv : Env) (body : RefreshTokenBody) :
  keeps_claims req ->
  fst (refresh sha256 lenv body (db_of (snd (adminUserRoutes cur req env s))))
  = fst (refresh sha256 lenv body (db_of s)).
Proof.
  intros Hkeep.
  destruct (admin_route_shape cur req env s) as [Htok Hshape].
  apply refresh_reads_claims_only; [exact Htok|].
  intros i. cbn [db_of users].
  destruct Hshape as [Hrows | [(b & -> & _) | (id & p & _ & Hreq & _ & Hrows)]];
    [now rewrite Hrows | contradiction |].
  assert (Hp : set_email p = None /\ set_role p = None).
  { destruct Hreq as [[_ ->] | (b & -> & -> & _)]; [auto|].
    destruct (Hkeep b eq_refl) as [He Hr]. cbn [updateData set_email set_role].
    now rewrite He, Hr. }
  destruct Hp as [He Hr].
  rewrite Hrows, !find_by_user_id_rows, find_row_by_id_patch_id.
  destruct (find (row_by_id i) (userRows s)) as [r|]; [|reflexivity].
  cbn [option_map]. destruct (row_by_id id r); [|reflexivity].
  unfold claims_of. cbn [apply_patch UserRow.user User.id User.email User.role].
  now rewrite He, Hr.
Qed.

(** X7 (a changed password).  Once PATCH /:id has answered for a body
    carrying a non-empty password and no email, /login for the user with
    that id is checked against the hash of the new password: an attempt that
    does not verify against it -- the old password, say -- is answered
    401 INVALID_CREDENTIALS. *)
Theorem password_change_takes_effect (cur : TokenPayload.t) (id : string)
  (body : UpdateUser.t) (env : AdminEnv) (s s' : Store) (reply : AdminReply)
  (p : string) (lenv : Env) (attempt : LoginBody) (u : User.t) :
  updateUser cur id (Some body) env s = (Replied reply, s') ->
  admin_status reply = 200 ->
  UpdateUser.password body = Some p ->
  p <> "" ->
  UpdateUser.email body = None ->
  find (by_email (email attempt)) (users (db_of s)) = Some u ->
  User.id u = id ->
  verifyPassword (password attempt) (hashPassword env p) = false ->
  login sha256 verifyPassword lenv attempt (db_of s')
  = (Normal (mkReply 401
               (ErrorResult "INVALID_CREDENTIALS" "Invalid email or password")),
     db_of s').
Proof.
  intros Hupd Hstatus Hp Hne Hemail Hfind Hid Hwrong.
  unfold updateUser in Hupd.
  destruct (negb (is_admin (TokenPayload.role cur)));
    [injection Hupd as <- _; discriminate|].
  destruct (is_assign_ADMIN _ && _); [injection Hupd as <- _; discriminate|].
  unfold user_update in Hupd.
  destruct (find (row_by_id id) (userRows s)); [|discriminate].
  destruct (email_taken id (updateData env body) (userRows s)); [discriminate|].
  injection Hupd as _ <-.
  cbn [db_of users userRows] in Hfind. rewrite find_by_email_rows in Hfind.
  destruct (find (row_by_email (email attempt)) (userRows s)) as [r|] eqn:Hrow;
    [|discriminate].
  injection Hfind as <-.
  apply login_unverified. right. right.
  exists (UserRow.user (apply_patch (updateData env body) r)), (hashPassword env p).
  split; [|split; [|exact Hwrong]].
  - cbn [db_of users userRows].
    rewrite find_by_email_rows, find_row_by_email_patch_id, Hrow
      by (cbn [updateData set_email]; exact Hemail).
    cbn [option_map]. unfold row_by_id. rewrite Hid, String.eqb_refl. reflexivity.
  - cbn [apply_patch UserRow.user User.password updateData set_password].
    rewrite Hp. rewrite (truthy_string_hash p Hne). reflexivity.
Qed.

End AdministrationAndSessions.

(** ** What the session handlers keep *)

Section SessionInvariants.

Variable sha256 : string -> string.
Variable verifyPassword : string -> string -> bool.

Lemma login_users env body db :
  users (snd (login sha256 verifyPassword env body db)) = users db.
Proof.
  destruct (credentials_dec verifyPassword body db) as [Hb | (u & Hf & Hg)].
  - now rewrite (login_unverified sha256 verifyPassword env body db Hb).
  - rewrite (login_verified sha256 verifyPassword env body db u Hf Hg).
    destruct (negb (User.active u)); [reflexivity|].
    destruct (existsb (by_token _) (refreshTokens db)); reflexivity.
Qed.

Lemma refresh_users env body db :
  users (snd (refresh sha256 env body db)) = users db.
Proof.
  destruct (verifyRefreshToken env (refreshToken body)) as [p|] eqn:Hv.
  2:{ now rewrite refresh_unverified. }
  destruct (rejected env (stored_token (sha256 (refreshToken body)) db)) eqn:Hr.
  { now rewrite (refresh_rejected _ _ _ _ p Hv Hr). }
  destruct (stored_token (sha256 (refreshToken body)) db) as [st|] eqn:Hs;
    [|discriminate].
  rewrite (refresh_passed _ _ _ _ p st Hv Hs Hr).
  destruct (user st) as [u|]; [|reflexivity].
  destruct (existsb (by_token _) (refreshTokens db)); reflexivity.
Qed.

(** X12 (sessions never touch users).  Whatever the request and its
    outcome, /login, /refresh and /logout leave the users table as it
    was. *)
Theorem session_handlers_never_write_users (env : Env) (credentials : LoginBody)
  (token : RefreshTokenBody) (db : Db) :
  users (snd (login sha256 verifyPassword env credentials db)) = users db
  /\ users (snd (refresh sha256 env token db)) = users db
  /\ users (snd (logout sha256 env token db)) = users db.
Proof.
  split; [apply login_users|]. split; [apply refresh_users | reflexivity].
Qed.

(** X13 (unique digests and keys).  Whatever the request and its outcome,
    /login, /refresh and /logout leave the primary keys and the token
    digests of the refresh-token table unique if they were. *)
Theorem session_handlers_keep_store_ok (env : Env) (credentials : LoginBody)
  (token : RefreshTokenBody) (db : Db) :
  store_ok db ->
  store_ok (snd (login sha256 verifyPassword env credentials db))
  /\ store_ok (snd (refresh sha256 env token db))
  /\ store_ok (snd (logout sha256 env token db)).
Proof.
  intros Hok. split; [now apply login_keeps_store_ok|].
  split; [now apply refresh_keeps_store_ok | now apply logout_keeps_store_ok].
Qed.




End SessionInvariants.

(** ** Seeding *)

Section Seeding.

Variable sha256 : string -> string.
Variable verifyPassword : string -> string -> bool.

Lemma existsb_row_by_email_find e rows :
  existsb (row_by_email e) rows = false -> find (row_by_email e) rows = None.
Proof. apply find_existsb_false. Qed.

(** What a run that exits with code 0 leaves behind: a user with the
    configured email. *)
Lemma main_exit_0 penv run s :
  exit_code (fst (main penv run s)) = 0 ->
  exists email,
    SUPER_ADMIN_EMAIL penv = Some email
    /\ existsb (row_by_email email) (userRows (snd (main penv run s))) = true.
Proof.
  unfold main.
  destruct (negb (truthy_string (js_or _ _))); [discriminate|].
  destruct (negb _ || negb _); [discriminate|].
  destruct (SUPER_ADMIN_EMAIL penv) as [email|]; [|discriminate].
  destruct (SUPER_ADMIN_PASSWORD penv) as [password|]; [|discriminate].
  destruct (existsb (row_by_email email) (userRows s)) eqn:Hex.
  { intros _. exists email. auto. }
  unfold user_create. cbn [UserRow.user User.id User.email].
  rewrite Hex, orb_false_r.
  destruct (existsb (row_by_id (createId run)) (userRows s)); [discriminate|].
  intros _. exists email. split; [reflexivity|].
  cbn [snd userRows]. rewrite existsb_app. cbn [existsb].
  unfold row_by_email at 2. cbn [UserRow.user User.email].
  rewrite String.eqb_refl. now rewrite orb_true_r.
Qed.

(** X16 (seeding twice).  A run of the seed script that finds a user with
    the configured email -- of whatever role, active or not -- writes
    nothing: the store it leaves is the store it found, whatever else is
    configured; and when the database url, the email and the password are
    all configured, it ends with "already exists" and exit code 0.  So
    after a run that exited with code 0, a second run under the same
    process environment changes nothing, even though it would draw another
    salt and another id. *)
Theorem seed_is_idempotent (penv : ProcessEnv) (run1 run2 : SeedRun) (s : Store) :
  (forall email,
      SUPER_ADMIN_EMAIL penv = Some email ->
      existsb (row_by_email email) (userRows s) = true ->
      snd (main penv run1 s) = s
      /\ (truthy_string (js_or (DATABASE_URL penv) (DIRECT_URL penv)) = true ->
          truthy_string (SUPER_ADMIN_EMAIL penv) = true ->
          truthy_string (SUPER_ADMIN_PASSWORD penv) = true ->
          main penv run1 s = (AlreadyExists email, s)))
  /\ (exit_code (fst (main penv run1 s)) = 0 ->
      exists email,
        SUPER_ADMIN_EMAIL penv = Some email
        /\ main penv run2 (snd (main penv run1 s))
           = (AlreadyExists email, snd (main penv run1 s))).
Proof.
  split.
  - intros email Hemail Hex. unfold main. rewrite Hemail.
    destruct (negb (truthy_string (js_or _ _))) eqn:Hurl.
    { split; [reflexivity|]. intros Hu. rewrite Hu in Hurl. discriminate Hurl. }
    destruct (negb _ || negb _) eqn:Hcred.
    { split; [reflexivity|]. intros _ He Hp. rewrite He, Hp in Hcred.
      discriminate Hcred. }
    destruct (SUPER_ADMIN_PASSWORD penv) as [password|].
    + rewrite Hex. split; [reflexivity|]. intros _ _ _. reflexivity.
    + cbn [truthy_string negb] in Hcred. rewrite orb_true_r in Hcred.
      discriminate Hcred.
  - intros Hexit.
    destruct (main_exit_0 penv run1 s Hexit) as (email & Hemail & Hex).
    exists email. split; [exact Hemail|].
    revert Hexit. unfold main at 1.
    destruct (negb (truthy_string (js_or _ _))) eqn:Hurl; [discriminate|].
    destruct (negb _ || negb _) eqn:Hcred; [discriminate|].
    intros _. unfold main at 1. rewrite Hurl, Hcred.
    rewrite Hemail in *.
    destruct (SUPER_ADMIN_PASSWORD penv) as [password|].
    + now rewrite Hex.
    + cbn [truthy_string negb] in Hcred. rewrite orb_true_r in Hcred. discriminate.
Qed.

(** X17 (seed, then log in).  After a run of the seed script that created
    the user, /login with the configured email and password is answered
    200 with a summary whose role is SUPER_ADMIN -- given that the password
    verifies against the bcrypt hash stored for it, that this hash is not
    the empty string, and that the refresh token issued is not one already
    stored. *)
Theorem seeded_admin_can_login (penv : ProcessEnv) (run : SeedRun) (s s' : Store)
  (email password : string) (lenv : Env) :
  main penv run s = (Created email, s') ->
  SUPER_ADMIN_PASSWORD penv = Some password ->
  verifyPassword password (bcrypt_hash run password 12) = true ->
  bcrypt_hash run password 12 <> "" ->
  let claims := TokenPayload.mk (createId run) email SUPER_ADMIN in
  existsb (by_token (sha256 (signRefreshToken lenv claims))) (tokenRows s') = false ->
  fst (login sha256 verifyPassword lenv (mkLogin email password) (db_of s'))
  = Normal
      (mkReply 200
         (LoginResult (signAccessToken lenv claims) (signRefreshToken lenv claims)
            (UserSummary.mk (createId run) email
               (string_or (SUPER_ADMIN_NAME penv) "Super Admin") SUPER_ADMIN))).
Proof.
  intros Hmain Hpw Hverify Hhash claims Hfresh.
  unfold main in Hmain.
  destruct (negb (truthy_string (js_or _ _))); [discriminate|].
  destruct (negb _ || negb _); [discriminate|].
  destruct (SUPER_ADMIN_EMAIL penv) as [email'|]; [|discriminate].
  rewrite Hpw in Hmain.
  destruct (existsb (row_by_email email') (userRows s)) eqn:Hex; [discriminate|].
  destruct (user_create _ s) as [e|s1] eqn:Hins; [discriminate|].
  injection Hmain as -> <-.
  unfold user_create in Hins. destruct (_ || _); [discriminate|].
  injection Hins as <-.
  set (u := User.mk (createId run) email (Some (seed_hashPassword run password))
              (string_or (SUPER_ADMIN_NAME penv) "Super Admin") SUPER_ADMIN true).
  assert (Hu : find (by_email email)
                 (users (db_of (mkStore (userRows s ++ [UserRow.mk u (NOW run)])
                                  (tokenRows s))))
               = Some u).
  { cbn [db_of users userRows].
    rewrite find_by_email_rows, find_app_last,
      (existsb_row_by_email_find _ _ Hex).
    unfold row_by_email. cbn [UserRow.user User.email u].
    now rewrite String.eqb_refl. }
  rewrite (login_verified sha256 verifyPassword lenv (mkLogin email password) _ u Hu).
  - cbn [User.active u negb]. cbn [db_of refreshTokens tokenRows] in *.
    change (claims_of u) with claims. rewrite Hfresh. reflexivity.
  - exists (seed_hashPassword run password). auto.
Qed.

End Seeding.

(** ** Navigation of the web client *)

Section Navigation.

Lemma filter_incl_pointwise {A : Type} (p q : A -> bool) (l : list A) :
  forallb (fun x => implb (p x) (q x)) l = true ->
  incl (filter p l) (filter q l).
Proof.
  intros Hall x Hin. apply filter_In in Hin. destruct Hin as [Hin Hp].
  apply filter_In. split; [exact Hin|].
  rewrite forallb_forall in Hall. specialize (Hall x Hin).
  rewrite Hp in Hall. exact Hall.
Qed.

Lemma incl_forallb_string (l1 l2 : list string) :
  forallb (fun x => existsb (String.eqb x) l2) l1 = true -> incl l1 l2.
Proof.
  intros Hall x Hin. rewrite forallb_forall in Hall.
  specialize (Hall x Hin). apply existsb_exists in Hall.
  destruct Hall as (y & Hy & Heq). apply String.eqb_eq in Heq. now subst y.
Qed.

(** Outside compact mode the links rendered are the entries
    [getNavItemsForRole] keeps. *)
Lemma AppLayout_links_full (role : UserRole) :
  AppLayout_links role false = getNavItemsForRole role false.
Proof. destruct role; vm_compute; reflexivity. Qed.

(** X18 (who sees what).  Outside compact mode the links rendered grow with
    the role: what STAFF is offered MANAGER is offered, what MANAGER is
    offered ADMIN is offered, and ADMIN and SUPER_ADMIN are offered the
    same.  In compact mode every role is offered the same bottom bar,
    [compactNavItems]: none of its entries is restricted to roles or marked
    [fullOnly], and the paths it leads to are, in the same order, those the
    sidebar offers to STAFF -- hence among those the sidebar offers to the
    role. *)
Theorem nav_grows_with_role (role : UserRole) (compactMode : bool) :
  incl (AppLayout_links STAFF compactMode) (AppLayout_links MANAGER compactMode)
  /\ incl (AppLayout_links MANAGER compactMode) (AppLayout_links ADMIN compactMode)
  /\ AppLayout_links ADMIN compactMode = AppLayout_links SUPER_ADMIN compactMode
  /\ AppLayout_links role true = compactNavItems
  /\ (forall item,
        In item (AppLayout_links role true) ->
        NavItem.roles item = None /\ NavItem.fullOnly item = false)
  /\ map NavItem.to (AppLayout_links role true)
     = map NavItem.to (AppLayout_links STAFF false)
  /\ incl (map NavItem.to (AppLayout_links role true))
          (map NavItem.to (AppLayout_links role false)).
Proof.
  split.
  { destruct compactMode; [apply incl_refl|].
    rewrite !AppLayout_links_full. unfold getNavItemsForRole.
    apply filter_incl_pointwise. vm_compute. reflexivity. }
  split.
  { destruct compactMode; [apply incl_refl|].
    rewrite !AppLayout_links_full. unfold getNavItemsForRole.
    apply filter_incl_pointwise. vm_compute. reflexivity. }
  split; [destruct compactMode; vm_compute; reflexivity|].
  split; [reflexivity|].
  split.
  { intros item Hin.
    assert (Hall : forallb (fun i => match NavItem.roles i with
                                      | None => negb (NavItem.fullOnly i)
                                      | Some _ => false
                                      end) (AppLayout_links role true) = true)
      by (vm_compute; reflexivity).
    rewrite forallb_forall in Hall. specialize (Hall item Hin).
    destruct (NavItem.roles item); [discriminate Hall|].
    destruct (NavItem.fullOnly item); [discriminate Hall|]. split; reflexivity. }
  split; [vm_compute; reflexivity|].
  apply incl_forallb_string. destruct role; vm_compute; reflexivity.
Qed.

(** X19 (the sidebar shows the whole menu).  For every role, the three
    groups of the sidebar -- work, management, admin -- taken in that order
    are the menu of the full mode: no entry is left out and none is shown
    twice. *)
Theorem sidebar_groups_are_the_menu (role : UserRole) :
  let navItems := getNavItemsForRole role false in
  sidebar_work navItems ++ sidebar_management navItems ++ sidebar_admin navItems
  = navItems.
Proof. intros navItems. destruct role; vm_compute; reflexivity. Qed.

(** X20 (a link that leads nowhere).  Outside compact mode the sidebar
    offers "/create-staff" to SUPER_ADMIN, ADMIN and MANAGER, and not to
    STAFF; the bottom bar of the compact mode offers it to nobody.  The
    route lets only SUPER_ADMIN through: an ADMIN or a MANAGER who follows
    the link is sent to "/dashboard". *)
Theorem create_staff_link_and_guard (user : UserSummary.t) (compactMode : bool) :
  (existsb (fun item => String.eqb (NavItem.to item) "/create-staff")
     (AppLayout_links (UserSummary.role user) compactMode) = true
   <-> compactMode = false /\ UserSummary.role user <> STAFF)
  /\ (RequireRole SUPER_ADMIN (Some user) = Children
      <-> UserSummary.role user = SUPER_ADMIN)
  /\ (UserSummary.role user = ADMIN \/ UserSummary.role user = MANAGER ->
      RequireRole SUPER_ADMIN (Some user) = Navigate "/dashboard").
Proof.
  assert (Hlink : forall role mode,
             existsb (fun item => String.eqb (NavItem.to item) "/create-staff")
               (AppLayout_links role mode)
             = negb mode && negb (role_eqb role STAFF))
    by (intros [] []; vm_compute; reflexivity).
  rewrite Hlink. unfold RequireRole.
  destruct (UserSummary.role user), compactMode; cbn [role_eqb negb andb].
  - split; [split; [intros H; discriminate H | intros [H _]; discriminate H]|].
    split; [split; reflexivity | intros [H | H]; discriminate H].
  - split; [split; [intros _; split; [reflexivity | intros H; discriminate H]
                   | reflexivity]|].
    split; [split; reflexivity | intros [H | H]; discriminate H].
  - split; [split; [intros H; discriminate H | intros [H _]; discriminate H]|].
    split; [split; intros H; discriminate H | reflexivity].
  - split; [split; [intros _; split; [reflexivity | intros H; discriminate H]
                   | reflexivity]|].
    split; [split; intros H; discriminate H | reflexivity].
  - split; [split; [intros H; discriminate H | intros [H _]; discriminate H]|].
    split; [split; intros H; discriminate H | reflexivity].
  - split; [split; [intros _; split; [reflexivity | intros H; discriminate H]
                   | reflexivity]|].
    split; [split; intros H; discriminate H | reflexivity].
  - split; [split; [intros H; discriminate H | intros [H _]; discriminate H]|].
    split; [split; intros H; discriminate H | intros [H | H]; discriminate H].
  - split; [split; [intros H; discriminate H | intros [_ H]; exfalso; now apply H]|].
    split; [split; intros H; discriminate H | intros [H | H]; discriminate H].
Qed.

Lemma small_count_text (count : Z) :
  0 < count <= 99 -> (String.length (String_of count) <= 2)%nat.
Proof.
  intros Hrange.
  assert (Hall : forallb (fun n => (String.length (String_of (Z.of_nat n)) <=? 2)%nat)
                   (seq 1 99) = true) by (vm_compute; reflexivity).
  rewrite forallb_forall in Hall.
  specialize (Hall (Z.to_nat count)).
  rewrite Z2Nat.id in Hall by lia.
  apply Nat.leb_le, Hall, in_seq. lia.
Qed.

(** X21 (the badge).  [CountBadge] shows nothing exactly when the count is
    zero or less.  When it shows a text, the text is "99+" for a count above
    99 and the decimal numeral of the count otherwise; it never has more
    than three characters. *)
Theorem count_badge_text (count : Z) (compact : bool) :
  (CountBadge count compact = None <-> count <= 0)
  /\ forall style text,
       CountBadge count compact = Some (style, text) ->
       style = compact
       /\ (99 < count -> text = "99+")
       /\ (count <= 99 -> text = String_of count)
       /\ (String.length text <= 3)%nat.
Proof.
  unfold CountBadge. split.
  - destruct (Z.leb_spec count 0); split; intros H'; try reflexivity;
      try discriminate; lia.
  - intros style text.
    destruct (Z.leb_spec count 0); [discriminate|].
    intros [= <- <-]. split; [reflexivity|].
    destruct (Z.gtb_spec count 99).
    + repeat split; [lia | cbn; lia].
    + repeat split; [lia|].
      pose proof (small_count_text count). lia.
Qed.


Lemma prefix_refl s : String.prefix s s = true.
Proof.
  induction s as [|a s IH]; simpl; [reflexivity|].
  destruct (Ascii.ascii_dec a a); [exact IH | contradiction].
Qed.

Lemma prefix_app_l s t p : String.prefix (s ++ t) p = true -> String.prefix s p = true.
Proof.
  revert p. induction s as [|a s IH]; intros p.
  - intros _. destruct p; reflexivity.
  - destruct p as [|b p]; simpl; [discriminate|].
    destruct (Ascii.ascii_dec a b); [apply IH | discriminate].
Qed.

Lemma prefix_of_both a b p :
  String.prefix a p = true -> String.prefix b p = true ->
  String.prefix a b = true \/ String.prefix b a = true.
Proof.
  revert a b. induction p as [|c p IH]; intros a b.
  - destruct a; [left; destruct b; reflexivity | discriminate].
  - destruct a as [|x a]; [left; destruct b; reflexivity|].
    destruct b as [|y b]; [right; reflexivity|].
    simpl. destruct (Ascii.ascii_dec x c) as [->|]; [|discriminate].
    destruct (Ascii.ascii_dec y c) as [->|]; [|discriminate].
    destruct (Ascii.ascii_dec c c); [apply IH | contradiction].
Qed.

Lemma isActive_prefix pathname item :
  isActive pathname item = true -> String.prefix (NavItem.to item) pathname = true.
Proof.
  unfold isActive. intros H. apply orb_true_iff in H. destruct H as [H | H].
  - apply String.eqb_eq in H. subst. apply prefix_refl.
  - eapply prefix_app_l. exact H.
Qed.

(** X23 (one tab at a time).  Whatever the pathname, at most one tab of
    the bottom bar of the compact mode is highlighted. *)
Theorem one_tab_active (pathname : string) (tab1 tab2 : NavItem.t) :
  In tab1 compactNavItems -> In tab2 compactNavItems ->
  isActive pathname tab1 = true -> isActive pathname tab2 = true ->
  tab1 = tab2.
Proof.
  intros H1 H2 A1 A2.
  apply isActive_prefix in A1, A2.
  destruct (prefix_of_both _ _ _ A1 A2) as [Hp | Hp]; clear A1 A2;
    unfold compactNavItems in H1, H2; simpl in H1, H2;
    repeat match goal with
           | H : _ \/ _ |- _ => destruct H as [H | H]
           end;
    subst; try contradiction; try reflexivity; discriminate Hp.
Qed.

End Navigation.

(** ** Requests one after another *)

Section Traces.

Variable sha256 : string -> string.
Variable verifyPassword : string -> string -> bool.

(** The token table a /login leaves: the old one, or one row more. *)
Lemma login_rows env body db :
  refreshTokens (snd (login sha256 verifyPassword env body db)) = refreshTokens db
  \/ exists row,
       refreshTokens (snd (login sha256 verifyPassword env body db))
       = refreshTokens db ++ [row].
Proof.
  destruct (credentials_dec verifyPassword body db) as [Hb | (u & Hf & Hg)].
  - left. now rewrite (login_unverified sha256 verifyPassword env body db Hb).
  - rewrite (login_verified sha256 verifyPassword env body db u Hf Hg).
    destruct (negb (User.active u)); [now left|].
    destruct (existsb (by_token _) (refreshTokens db)); [now left|].
    right. eexists. reflexivity.
Qed.

(** The token table a /refresh leaves: the old one, or the old one with
    one id revoked, with or without one row more. *)
Lemma refresh_rows env body db :
  refreshTokens (snd (refresh sha256 env body db)) = refreshTokens db
  \/ exists id t,
       refreshTokens (snd (refresh sha256 env body db))
       = revoke_id id t (refreshTokens db)
       \/ exists row,
            refreshTokens (snd (refresh sha256 env body db))
            = revoke_id id t (refreshTokens db) ++ [row].
Proof.
  destruct (verifyRefreshToken env (refreshToken body)) as [p|] eqn:Hv.
  2:{ left. now rewrite refresh_unverified. }
  destruct (rejected env (stored_token (sha256 (refreshToken body)) db)) eqn:Hr.
  { left. now rewrite (refresh_rejected _ _ _ _ p Hv Hr). }
  destruct (stored_token (sha256 (refreshToken body)) db) as [st|] eqn:Hs;
    [|discriminate].
  rewrite (refresh_passed _ _ _ _ p st Hv Hs Hr).
  right. exists (RefreshToken.id (row st)), (now_revoke env).
  destruct (user st) as [u|]; [|now left].
  destruct (existsb (by_token _) (refreshTokens db)); [now left|].
  right. eexists. reflexivity.
Qed.

Lemma revoked_in_app h rows l : revoked_in h rows -> revoked_in h (rows ++ l).
Proof.
  intros (r & Hf & Hrev). exists r. split; [|exact Hrev].
  induction rows as [|a rows IH]; simpl in *; [discriminate|].
  destruct (by_token h a); [exact Hf | now apply IH].
Qed.

Lemma revoked_in_revoke_id h id t rows :
  revoked_in h rows -> revoked_in h (revoke_id id t rows).
Proof.
  intros (r & Hf & Hrev).
  exists (if by_id id r then set_revokedAt t r else r).
  rewrite find_by_token_revoke_id, Hf. split; [reflexivity|].
  destruct (by_id id r); [discriminate | exact Hrev].
Qed.

Lemma revoked_in_revoke_token h h' t rows :
  revoked_in h rows -> revoked_in h (revoke_token h' t rows).
Proof.
  intros (r & Hf & Hrev).
  exists (if by_token h' r then set_revokedAt t r else r).
  rewrite find_by_token_revoke_token, Hf. split; [reflexivity|].
  destruct (by_token h' r); [discriminate | exact Hrev].
Qed.

Lemma serve_keeps_revoked h s r :
  revoked_in h (tokenRows s) ->
  revoked_in h (tokenRows (serve sha256 verifyPassword s r)).
Proof.
  intros Hrev. destruct r as [env body | env body | env body | cur req env];
    cbn [serve session_on tokenRows].
  - destruct (login_rows env body (db_of s)) as [-> | (row & ->)];
      [exact Hrev | now apply revoked_in_app].
  - destruct (refresh_rows env body (db_of s))
      as [-> | (id & t & [-> | (row & ->)])];
      [exact Hrev | now apply revoked_in_revoke_id |].
    apply revoked_in_app. now apply revoked_in_revoke_id.
  - rewrite logout_eq. cbn [snd refreshTokens db_of].
    now apply revoked_in_revoke_token.
  - destruct (admin_route_shape cur req env s) as [-> _]. exact Hrev.
Qed.

(** X24 (revoked for good).  Once the row of a refresh token carries a
    revocation instant -- by rotation or by logout --, no sequence of
    logins, refreshes, logouts and admin requests, by whomever, makes the
    token exchangeable again: after any such sequence /refresh answers it
    with 401 INVALID_TOKEN. *)
Theorem revoked_is_forever (s : Store) (requests : list Request) (env : Env)
  (body : RefreshTokenBody) :
  revoked_in (sha256 (refreshToken body)) (tokenRows s) ->
  InvalidTokenError
    (refresh sha256 env body (db_of (serve_all sha256 verifyPassword s requests))).
Proof.
  intros Hrev.
  assert (Hlater : revoked_in (sha256 (refreshToken body))
                     (tokenRows (serve_all sha256 verifyPassword s requests))).
  { unfold serve_all. revert s Hrev.
    induction requests as [|r requests IH]; intros s Hrev; simpl; [exact Hrev|].
    apply IH. now apply serve_keeps_revoked. }
  apply refresh_turned_away. intros st Hs.
  apply stored_token_row in Hs. destruct Hs as [Hf _].
  destruct Hlater as (r & Hr & Hrevoked).
  cbn [db_of refreshTokens] in Hf. rewrite Hr in Hf. injection Hf as <-.
  exact Hrevoked.
Qed.

Lemma serve_roles s r :
  let s' := serve sha256 verifyPassword s r in
  (forall id, holds_role SUPER_ADMIN s' id -> holds_role SUPER_ADMIN s id)
  /\ ((forall cur req env,
         r = AdminUserRequest cur req env -> TokenPayload.role cur <> SUPER_ADMIN) ->
      forall id, holds_role ADMIN s' id -> holds_role ADMIN s id).
Proof.
  destruct r as [env body | env body | env body | cur req env];
    cbn [serve session_on]; try (split; intros; assumption).
  split.
  - intros id H.
    destruct (admin_route_role_sources _ _ _ _ _ _ H) as [Hold | (a & Ha & _)];
      [exact Hold|].
    destruct a; discriminate Ha.
  - intros Hcallers id H.
    destruct (admin_route_role_sources _ _ _ _ _ _ H) as [Hold | (a & Ha & Hsuper)];
      [exact Hold|].
    destruct a; try discriminate Ha. exfalso.
    now apply (Hcallers cur req env eq_refl), Hsuper.
Qed.

(** X25 (where privileges come from).  No sequence of API requests makes
    a SUPER_ADMIN: whoever holds that role afterwards held it before.  And
    a sequence in which no admin request comes from a caller whose token
    says SUPER_ADMIN makes no ADMIN. *)
Theorem requests_grant_no_privilege (s : Store) (requests : list Request) :
  let s' := serve_all sha256 verifyPassword s requests in
  (forall id, holds_role SUPER_ADMIN s' id -> holds_role SUPER_ADMIN s id)
  /\ ((forall cur req env,
         In (AdminUserRequest cur req env) requests ->
         TokenPayload.role cur <> SUPER_ADMIN) ->
      forall id, holds_role ADMIN s' id -> holds_role ADMIN s id).
Proof.
  unfold serve_all. revert s.
  induction requests as [|r requests IH]; intros s; simpl.
  - split; intros; assumption.
  - destruct (IH (serve sha256 verifyPassword s r)) as [IHsuper IHadmin].
    destruct (serve_roles s r) as [Hsuper Hadmin].
    split.
    + intros id H. apply Hsuper, IHsuper, H.
    + intros Hcallers id H. apply Hadmin.
      * intros cur req env ->. apply (Hcallers cur req env). now left.
      * apply IHadmin; [|exact H].
        intros cur req env Hin. apply (Hcallers cur req env). now right.
Qed.

End Traces.

(** ** Administration, seeding and navigation on sample data *)

Lemma sample_store_ok : users_ok Sample.store.
Proof.
  split; simpl;
    repeat (constructor; [simpl; intuition discriminate|]); constructor.
Defined.

Lemma admin_routes_keep_users_ok_witness :
  users_ok Sample.store
  /\ users_ok (snd (adminUserRoutes Sample.root_caller (POST_user (Some Sample.erin))
                      Sample.env Sample.store)).
Proof.
  split; [exact sample_store_ok|].
  apply admin_routes_keep_users_ok. exact sample_store_ok.
Defined.

Lemma created_user_can_login_witness :
  fst (createUser Sample.root_caller (Some Sample.erin) Sample.env Sample.store)
  = Replied (mkAdminReply 201
               (UserPayload (UserView.mk "u9" "e@x.com" "Erin" MANAGER true 5000)))
  /\ fst (login Fixture.sha256 Fixture.verifyPassword (Fixture.env_at 9000 "s1")
            (mkLogin "e@x.com" "erinpass1")
            (db_of (snd (createUser Sample.root_caller (Some Sample.erin) Sample.env
                           Sample.store))))
     = Normal (mkReply 200
                 (LoginResult "access.u9.s1" "refresh.u9.s1"
                    (UserSummary.mk "u9" "e@x.com" "Erin" MANAGER))).
Proof.
  split; [reflexivity|].
  apply (created_user_can_login Fixture.sha256 Fixture.verifyPassword
           Sample.root_caller Sample.erin Sample.env Sample.store
           (snd (createUser Sample.root_caller (Some Sample.erin) Sample.env Sample.store))
           (UserPayload (UserView.mk "u9" "e@x.com" "Erin" MANAGER true 5000))
           (Fixture.env_at 9000 "s1"));
    [reflexivity | reflexivity | discriminate | reflexivity].
Defined.

Lemma deactivated_user_cannot_login_witness :
  fst (login Fixture.sha256 Fixture.verifyPassword (Fixture.env_at 9000 "s1")
         Fixture.alice_login (db_of Sample.store))
  = Normal (mkReply 200
              (LoginResult "access.u1.s1" "refresh.u1.s1"
                 (UserSummary.mk "u1" "a@x.com" "Alice" STAFF)))
  /\ login Fixture.sha256 Fixture.verifyPassword (Fixture.env_at 9000 "s1")
       Fixture.alice_login
       (db_of (snd (deactivateUser Sample.root_caller "u1" Sample.store)))
     = (Normal (mkReply 403 (ErrorResult "ACCOUNT_DISABLED" "Account is disabled")),
        db_of (snd (deactivateUser Sample.root_caller "u1" Sample.store))).
Proof.
  split; [reflexivity|].
  apply (deactivated_user_cannot_login Fixture.sha256 Fixture.verifyPassword
           Sample.root_caller "u1" Sample.store _ (Fixture.env_at 9000 "s1")
           Fixture.alice_login Fixture.alice);
    [reflexivity | reflexivity | reflexivity |].
  exists "bcrypt:secret123". split; [reflexivity|]. split; [discriminate | reflexivity].
Defined.

Lemma sessions_survive_deactivation_witness :
  User.active
    (UserRow.user
       (nth 1 (userRows (snd (adminUserRoutes Sample.root_caller (DELETE_user "u1")
                                Sample.env Sample.store)))
          (UserRow.mk Sample.root 0)))
  = false
  /\ fst (refresh Fixture.sha256 (Fixture.env_at 1000 "s1") Fixture.T0
            (db_of (snd (adminUserRoutes Sample.root_caller (DELETE_user "u1")
                           Sample.env Sample.store))))
     = Normal (send_ok (RefreshResult "access.u1.s1" "refresh.u1.s1")).
Proof.
  split; [reflexivity|].
  rewrite (sessions_survive_deactivation Fixture.sha256 Sample.root_caller
             (DELETE_user "u1") Sample.env Sample.store (Fixture.env_at 1000 "s1")
             Fixture.T0 I).
  reflexivity.
Defined.

Lemma password_change_takes_effect_witness :
  login Fixture.sha256 Fixture.verifyPassword (Fixture.env_at 9000 "s1")
    Fixture.alice_login
    (db_of (snd (updateUser Sample.root_caller "u1" (Some Sample.new_password)
                   Sample.env Sample.store)))
  = (Normal (mkReply 401
               (ErrorResult "INVALID_CREDENTIALS" "Invalid email or password")),
     db_of (snd (updateUser Sample.root_caller "u1" (Some Sample.new_password)
                   Sample.env Sample.store))).
Proof.
  apply (password_change_takes_effect Fixture.sha256 Fixture.verifyPassword
           Sample.root_caller "u1" Sample.new_password Sample.env Sample.store _
           (mkAdminReply 200
              (UserPayload (UserView.mk "u1" "a@x.com" "Alice" STAFF true 10)))
           "newsecret1" (Fixture.env_at 9000 "s1") Fixture.alice_login Fixture.alice);
    [reflexivity | reflexivity | reflexivity | discriminate | reflexivity
    | reflexivity | reflexivity | reflexivity].
Defined.

Lemma admin_routes_forbidden_witness :
  adminUserRoutes Sample.alice_caller (DELETE_user "u2") Sample.env Sample.store
  = (Replied (mkAdminReply 403 (ErrorPayload "Forbidden")), Sample.store).
Proof.
  apply admin_routes_forbidden. right. reflexivity.
Defined.

Lemma unknown_id_raises_witness :
  updateUser Sample.dave_caller "u404" (Some Sample.new_password) Sample.env Sample.store
  = (Raised (PrismaError P2025), Sample.store)
  /\ deactivateUser Sample.dave_caller "u404" Sample.store
     = (Raised (PrismaError P2025), Sample.store).
Proof.
  destruct (unknown_id_raises Sample.dave_caller "u404" Sample.env Sample.store
              eq_refl eq_refl) as [Hpatch Hdelete].
  split; [apply Hpatch; reflexivity | apply Hdelete; discriminate].
Defined.

Lemma taken_email_witness :
  createUser Sample.dave_caller
    (Some (CreateUser.mk "Bobby" "b@x.com" "bobbypass1" Assignable.STAFF))
    Sample.env Sample.store
  = (Replied (mkAdminReply 409 (ErrorPayload "Email already exists")), Sample.store)
  /\ updateUser Sample.dave_caller "u1" (Some Sample.take_bobs_email) Sample.env
       Sample.store
     = (Raised (PrismaError P2002), Sample.store).
Proof.
  destruct (taken_email Sample.dave_caller Sample.env Sample.store
              (UserRow.mk Fixture.bob 20) eq_refl)
    as [Hpost Hpatch]; [simpl; tauto|].
  split.
  - apply Hpost; reflexivity.
  - apply (Hpatch "u1" Sample.take_bobs_email (UserRow.mk Fixture.alice 10));
      [reflexivity | reflexivity | reflexivity | discriminate].
Defined.

Lemma self_deactivation_by_patch_witness :
  deactivateUser Sample.dave_caller "u4" Sample.store
  = (Replied (mkAdminReply 400 (ErrorPayload "Cannot deactivate yourself")),
     Sample.store)
  /\ fst (updateUser Sample.dave_caller "u4"
            (Some (UpdateUser.mk None None None None (Some false))) Sample.env
            Sample.store)
     = Replied (mkAdminReply 200
                  (UserPayload (UserView.mk "u4" "d@x.com" "Dave" ADMIN false 40))).
Proof.
  destruct (self_deactivation_by_patch Sample.dave_caller Sample.env Sample.store
              (UserRow.mk Sample.dave 40) eq_refl eq_refl)
    as (Hdelete & Hpatch & _).
  split; [exact Hdelete | exact Hpatch].
Defined.

Lemma session_handlers_keep_store_ok_witness :
  store_ok (snd (login Fixture.sha256 Fixture.verifyPassword (Fixture.env_at 1000 "s1")
                   Fixture.alice_login Fixture.one_token_db))
  /\ store_ok (snd (refresh Fixture.sha256 (Fixture.env_at 1000 "s1") Fixture.T0
                      Fixture.one_token_db))
  /\ store_ok (snd (logout Fixture.sha256 (Fixture.env_at 1000 "s1") Fixture.T0
                      Fixture.one_token_db)).
Proof.
  apply session_handlers_keep_store_ok. exact one_token_db_ok.
Defined.


Lemma seed_is_idempotent_witness :
  fst (main Sample.penv Sample.run Sample.store) = Created "first@x.com"
  /\ main Sample.penv Sample.later_run (snd (main Sample.penv Sample.run Sample.store))
     = (AlreadyExists "first@x.com", snd (main Sample.penv Sample.run Sample.store))
  /\ exists email,
       SUPER_ADMIN_EMAIL Sample.penv = Some email
       /\ main Sample.penv Sample.later_run (snd (main Sample.penv Sample.run Sample.store))
          = (AlreadyExists email, snd (main Sample.penv Sample.run Sample.store)).
Proof.
  split; [reflexivity|]. split.
  - destruct (seed_is_idempotent Sample.penv Sample.later_run Sample.later_run
                (snd (main Sample.penv Sample.run Sample.store))) as [Hfound _].
    destruct (Hfound "first@x.com") as [_ Hsame]; [reflexivity | reflexivity |].
    apply Hsame; reflexivity.
  - destruct (seed_is_idempotent Sample.penv Sample.run Sample.later_run Sample.store)
      as [_ Hrerun].
    apply Hrerun. reflexivity.
Defined.

Lemma seeded_admin_can_login_witness :
  fst (login Fixture.sha256 Fixture.verifyPassword (Fixture.env_at 9000 "s1")
         (mkLogin "first@x.com" "firstpass1")
         (db_of (snd (main Sample.penv Sample.run Sample.store))))
  = Normal (mkReply 200
              (LoginResult "access.u7.s1" "refresh.u7.s1"
                 (UserSummary.mk "u7" "first@x.com" "Super Admin" SUPER_ADMIN))).
Proof.
  apply (seeded_admin_can_login Fixture.sha256 Fixture.verifyPassword Sample.penv
           Sample.run Sample.store (snd (main Sample.penv Sample.run Sample.store))
           "first@x.com" "firstpass1" (Fixture.env_at 9000 "s1"));
    [reflexivity | reflexivity | reflexivity | discriminate | reflexivity].
Defined.

Lemma revoked_is_forever_witness :
  revoked_in (Fixture.sha256 (refreshToken Fixture.T0)) (tokenRows Sample.rotated_store)
  /\ InvalidTokenError
       (refresh Fixture.sha256 (Fixture.env_at 3000 "s3") Fixture.T0
          (db_of (serve_all Fixture.sha256 Fixture.verifyPassword Sample.rotated_store
                    Sample.busy_day))).
Proof.
  assert (Hrev : revoked_in (Fixture.sha256 (refreshToken Fixture.T0))
                   (tokenRows Sample.rotated_store)).
  { exists (set_revokedAt 1000 Fixture.alice_row). split; [reflexivity | discriminate]. }
  split; [exact Hrev|].
  apply revoked_is_forever. exact Hrev.
Defined.


Lemma one_tab_active_witness :
  isActive "/pick/42" Sample.pick_tab = true
  /\ forall tab,
       In tab compactNavItems -> isActive "/pick/42" tab = true -> tab = Sample.pick_tab.
Proof.
  split; [reflexivity|].
  intros tab Hin Hactive.
  apply (one_tab_active "/pick/42" tab Sample.pick_tab Hin); [|exact Hactive | reflexivity].
  simpl. tauto.
Defined.
